(** * Dashboard assistant: schema catalog, table contract providers,
      query executor and agent controller of [streamlit_app.py]

    A shallow embedding of the tool layer of the chatbot.  Python [str]
    values are modelled as [string] (the source literals are pure ASCII, and
    the string operations below are exact on ASCII text); Python exceptions
    are modelled by the [outcome] monad, so that "never raises" is a statement
    about the constructor a computation ends in. *)

From Stdlib Require Import String Ascii List Bool Arith ZArith Lia.
From Stdlib Require Import DecimalString.
Import ListNotations.
Open Scope string_scope.
Set Warnings "-register-all".


(** ** Python strings *)

(** The characters that the literals of the source need and that a Rocq
    string literal does not hold here: the double quote and the newline. *)
Definition dq : string := String (ascii_of_nat 34) EmptyString.
Definition nl : string := String (ascii_of_nat 10) EmptyString.

Module PyStr.

(** A triple-quoted literal, given line by line. *)
Definition lines (l : list string) : string := String.concat nl l.

Definition is_upper (c : ascii) : bool :=
  Nat.leb 65 (nat_of_ascii c) && Nat.leb (nat_of_ascii c) 90.

Definition is_lower (c : ascii) : bool :=
  Nat.leb 97 (nat_of_ascii c) && Nat.leb (nat_of_ascii c) 122.

Definition lower_char (c : ascii) : ascii :=
  if is_upper c then ascii_of_nat (nat_of_ascii c + 32) else c.

Definition upper_char (c : ascii) : ascii :=
  if is_lower c then ascii_of_nat (nat_of_ascii c - 32) else c.

(** [str.lower()] *)
Fixpoint lower (s : string) : string :=
  match s with
  | EmptyString => EmptyString
  | String c s' => String (lower_char c) (lower s')
  end.

(** [str.capitalize()]: first character upper-cased, the rest lower-cased. *)
Definition capitalize (s : string) : string :=
  match s with
  | EmptyString => EmptyString
  | String c s' => String (upper_char c) (lower s')
  end.

(** [str.startswith(p)] *)
Definition startswith (s p : string) : bool := String.prefix p s.

(** [sep.join(l)] *)
Definition join (sep : string) (l : list string) : string := String.concat sep l.

(** [s.split(" ", 1)]: cut at the first space, at most once. *)
Fixpoint split_space_1 (s : string) : list string :=
  match s with
  | EmptyString => [EmptyString]
  | String c s' =>
      if Ascii.eqb c " "%char then [EmptyString; s']
      else match split_space_1 s' with
           | [] => [String c EmptyString]
           | h :: t => String c h :: t
           end
  end.

(** [s.split("\n")] *)
Fixpoint split_newline (s : string) : list string :=
  match s with
  | EmptyString => [EmptyString]
  | String c s' =>
      if Ascii.eqb c (ascii_of_nat 10) then EmptyString :: split_newline s'
      else match split_newline s' with
           | [] => [String c EmptyString]
           | h :: t => String c h :: t
           end
  end.

(** [x in s] for strings: [x] occurs in [s] as a contiguous run. *)
Fixpoint contains (s x : string) : bool :=
  String.prefix x s ||
  match s with
  | EmptyString => false
  | String _ s' => contains s' x
  end.

Fixpoint has_char (c : ascii) (s : string) : bool :=
  match s with
  | EmptyString => false
  | String d s' => Ascii.eqb c d || has_char c s'
  end.

Definition hex_digit (n : nat) : ascii :=
  if Nat.ltb n 10 then ascii_of_nat (48 + n) else ascii_of_nat (87 + n).

Definition backslash : ascii := ascii_of_nat 92.
Definition squote : ascii := ascii_of_nat 39.
Definition dquote : ascii := ascii_of_nat 34.

(** One character of [repr(s)], for the chosen quote character. *)
Definition repr_char (quote c : ascii) : string :=
  let n := nat_of_ascii c in
  if Ascii.eqb c quote || Ascii.eqb c backslash then String backslash (String c EmptyString)
  else if Nat.eqb n 9 then String backslash "t"
  else if Nat.eqb n 10 then String backslash "n"
  else if Nat.eqb n 13 then String backslash "r"
  else if Nat.ltb n 32 || Nat.ltb 126 n then
    String backslash (String "x" (String (hex_digit (n / 16)) (String (hex_digit (n mod 16)) EmptyString)))
  else String c EmptyString.

Fixpoint repr_body (quote : ascii) (s : string) : string :=
  match s with
  | EmptyString => EmptyString
  | String c s' => repr_char quote c ++ repr_body quote s'
  end.

(** [repr(s)] of a [str]: single quotes, unless the text holds a single
    quote and no double quote. *)
Definition repr (s : string) : string :=
  let quote := if has_char squote s && negb (has_char dquote s) then dquote else squote in
  String quote (repr_body quote s ++ String quote EmptyString).

End PyStr.

(** ** Exceptions *)

(** The exceptions of class [Exception] the modelled code can meet: the
    two a lookup raises, and any other, carried by its message. *)
Inductive exn : Type :=
| KeyError (key : string)
| IndexError (msg : string)
| OtherException (msg : string).

(** [str(e)] *)
Definition exn_str (e : exn) : string :=
  match e with
  | KeyError k => PyStr.repr k
  | IndexError m => m
  | OtherException m => m
  end.

Inductive outcome (A : Type) : Type :=
| Returned (a : A)
| Raised (e : exn).
Arguments Returned {A} a.
Arguments Raised {A} e.

Definition bind {A B : Type} (m : outcome A) (k : A -> outcome B) : outcome B :=
  match m with
  | Returned a => k a
  | Raised e => Raised e
  end.

(** [try: body  except Exception as e: handler(e)] *)
Definition try_except {A : Type} (body : outcome A) (handler : exn -> outcome A) : outcome A :=
  match body with
  | Returned a => Returned a
  | Raised e => handler e
  end.

Declare Scope py_scope.
Delimit Scope py_scope with py.
Notation "x <- m ;; k" := (bind m (fun x => k))
  (at level 61, m at next level, right associativity) : py_scope.
Open Scope py_scope.

(** ** Python values *)

Inductive pyval : Type :=
| VStr (s : string)
| VInt (z : Z)
| VNone
| VObj (r : string)   (* any other object, carried by its [repr] *)
| VList (l : list pyval)
| VDict (d : list (string * pyval)).

Definition Z_to_string (z : Z) : string := NilZero.string_of_int (Z.to_int z).

(** [repr(v)] *)
Fixpoint py_repr (v : pyval) : string :=
  match v with
  | VStr s => PyStr.repr s
  | VInt z => Z_to_string z
  | VNone => "None"
  | VObj r => r
  | VList l => "[" ++ PyStr.join ", " (map py_repr l) ++ "]"
  | VDict d =>
      "{" ++ PyStr.join ", "
               (map (fun kv => match kv with
                               | (k, x) => PyStr.repr k ++ ": " ++ py_repr x
                               end) d) ++ "}"
  end.

(** [str(v)], which is what an f-string field formats with. *)
Definition py_str (v : pyval) : string :=
  match v with
  | VStr s => s
  | _ => py_repr v
  end.

Definition pydict : Type := list (string * pyval).

(** [k in d] *)
Fixpoint dict_contains (d : pydict) (k : string) : bool :=
  match d with
  | [] => false
  | (k', _) :: d' => String.eqb k k' || dict_contains d' k
  end.

(** [d[k]] *)
Fixpoint dict_getitem (d : pydict) (k : string) : outcome pyval :=
  match d with
  | [] => Raised (KeyError k)
  | (k', v) :: d' => if String.eqb k k' then Returned v else dict_getitem d' k
  end.

(** [d.keys()] *)
Definition dict_keys (d : pydict) : list string := map fst d.

(** [v[k]] where the code expects [v] to be a dict. *)
Definition getitem (v : pyval) (k : string) : outcome pyval :=
  match v with
  | VDict d => dict_getitem d k
  | _ => Raised (OtherException "object is not subscriptable")
  end.

(** [k in v] where the code expects [v] to be a dict (or a list of strings). *)
Definition contains_key (v : pyval) (k : string) : outcome bool :=
  match v with
  | VDict d => Returned (dict_contains d k)
  | VList l => Returned (existsb (fun x => match x with VStr s => String.eqb k s | _ => false end) l)
  | _ => Raised (OtherException "argument is not iterable")
  end.

(** [l[i]] *)
Definition list_getitem {A : Type} (l : list A) (i : nat) : outcome A :=
  match nth_error l i with
  | Some a => Returned a
  | None => Raised (IndexError "list index out of range")
  end.

(** ** Schema Catalog: [DataSchemaRoadmapTool] *)

(** One value of [schema_map]: the dict literal with the two fixed keys
    ["description"] and ["fields"]. *)
Record schema_entry : Type := { description : string; fields : list string }.

Module DataSchemaRoadmapTool.

Definition name : string := "Data Schema Roadmap".

(** The dict assigned in [__init__]; a Python dict keeps its keys in
    insertion order, which here is the order of the literal. *)
Definition schema_map : list (string * schema_entry) :=
  [ ("the_pulse.reviews_forLS",
     {| description := "Contains detailed review information";
        fields :=
          [ "id";
            "ghl_location_name";
            "ghl_location_id";
            "comments";
            "rating";
            "reviewer";
            "google_review_id";
            "review_added_on";
            "reviews_conversation";
            "is_posted_on_fb";
            "user_id";
            "review_id";
            "locationid";
            "review_path";
            "ai_generated_response";
            "createdAt";
            "updatedAt";
            "posted_on_fb";
            "posted_on_insta";
            "posted_on_other";
            "posted_on_twitter";
            "email";
            "five_star_rating";
            "one_to_four_star_rating";
            "rating_2";
            "rating_3" ] |});
    ("the_pulse.opportunities_monthly_forLS",
     {| description := "Monthly aggregated data on sales opportunities";
        fields :=
          [ "ghl_location_id";
            "ghl_location_name";
            "opportunity_created_date";
            "Month";
            "Leads";
            "Qualified";
            "Retained";
            "Lost";
            "Signed_Cases";
            "Revenue" ] |});
    ("the_pulse.calls_monthly_forLS",
     {| description := "Monthly aggregated call data";
        fields :=
          [ "ghl_location_id";
            "ghl_location_name";
            "call_date";
            "Month";
            "Total_Calls";
            "Answered_Calls" ] |});
    ("the_pulse.calls_forLS",
     {| description := "Detailed call data";
        fields :=
          [ "ghl_location_id";
            "ghl_location_name";
            "call_date";
            "Total_Calls";
            "Answered_Calls";
            "Missed_Calls" ] |});
    ("the_pulse.ad_expense_data_monthly_forLS",
     {| description := "Monthly aggregated ad expense data";
        fields :=
          [ "ghl_location_id";
            "ghl_location_name";
            "formatted_expense_monthyear";
            "Month";
            "ad_expense" ] |});
    ("the_pulse.ad_expense_data_forLS",
     {| description := "Detailed ad expense data";
        fields :=
          [ "ghl_location_id";
            "ghl_location_name";
            "id";
            "ad_expense";
            "expense_monthyear";
            "expense_month";
            "expense_year";
            "converted_leads";
            "forecasted_revenue";
            "created_on";
            "updated_on";
            "formatted_expense_monthyear" ] |});
    ("the_pulse.opportunities_forLS",
     {| description := "Detailed information on sales opportunities";
        fields :=
          [ "ghl_location_id";
            "ghl_location_name";
            "contact_id";
            "contact_email";
            "contact_tags";
            "opportunity_created_date";
            "opportunity_id";
            "Leads";
            "Qualified";
            "Retained";
            "Open_1";
            "Lost";
            "Signed_Cases";
            "opportunity_pipeline_name";
            "opportunity_pipeline_id";
            "opportunity_stage_name";
            "opportunity_stage_id";
            "opportunity_source";
            "Revenue";
            "Status";
            "opportunity_assigned_user";
            "Location";
            "Medium";
            "Type" ] |}) ].
(** The tool object: its one attribute that [_run] reads. *)
Record t : Type := { self_schema_map : list (string * schema_entry) }.

Definition __init__ : t := {| self_schema_map := schema_map |}.

(** [self.schema_map.keys()] *)
Definition keys (m : list (string * schema_entry)) : list string := map fst m.

(** [table_name in self.schema_map] and [self.schema_map[table_name]]. *)
Fixpoint lookup (k : string) (m : list (string * schema_entry)) : option schema_entry :=
  match m with
  | [] => None
  | (k', e) :: m' => if String.eqb k k' then Some e else lookup k m'
  end.

Definition invalid_query : string :=
  "Invalid query. Use 'list tables' to see all tables or 'describe [table_name]' for details on a specific table.".

(** [_run(self, query)].  The method assigns to no attribute of [self]:
    the state of the object after the call is returned beside the result. *)
Definition _run (self : t) (query : string) : outcome string * t :=
  if String.eqb (PyStr.lower query) "list tables" then
    (Returned (PyStr.join nl (keys (self_schema_map self))), self)
  else if PyStr.startswith (PyStr.lower query) "describe " then
    (table_name <- list_getitem (PyStr.split_space_1 query) 1 ;;
     match lookup table_name (self_schema_map self) with
     | Some table_info =>
         Returned ("Table: " ++ table_name ++ nl ++
                   "Description: " ++ description table_info ++ nl ++
                   "Fields: " ++ PyStr.join ", " (fields table_info))
     | None =>
         Returned ("Table " ++ table_name ++ " not found in the schema map.")
     end, self)
  else
    (Returned invalid_query, self).

(** A session of calls on one tool object: the results, oldest first, and
    the object at the end. *)
Fixpoint run_all (self : t) (queries : list string) : list (outcome string) * t :=
  match queries with
  | [] => ([], self)
  | q :: qs =>
      let (r, self') := _run self q in
      let (rs, self'') := run_all self' qs in
      (r :: rs, self'')
  end.

(** The identifiers a caller reads off the answer to ["list tables"]. *)
Definition listed_tables (self : t) : list string :=
  match fst (_run self "list tables") with
  | Returned s => PyStr.split_newline s
  | Raised _ => []
  end.

(** What a successful [describe] answers for an entry. *)
Definition describe_text (table_name : string) (e : schema_entry) : string :=
  "Table: " ++ table_name ++ nl ++
  "Description: " ++ description e ++ nl ++
  "Fields: " ++ PyStr.join ", " (fields e).

Definition not_found_text (table_name : string) : string :=
  "Table " ++ table_name ++ " not found in the schema map.".

End DataSchemaRoadmapTool.

(** ** Query Executor: [execute_bigquery] *)

(** The warehouse client as the executor uses it: [client.query(q)] gives a
    job or raises, [job.result()] gives the rows or raises; a row is taken
    as the dict that [dict(row)] makes of it. *)
Record BigQueryClient (Job : Type) : Type :=
  { client_query : string -> outcome Job;
    job_result : Job -> outcome (list pydict) }.
Arguments client_query {Job} _ _.
Arguments job_result {Job} _ _.

Definition error_prefix : string := "An error occurred: ".

Definition execute_bigquery {Job : Type} (client : BigQueryClient Job) (query : string)
  : outcome string :=
  try_except
    (query_job <- client_query client query ;;
     results <- job_result client query_job ;;
     Returned (py_str (VList (map VDict results))))
    (fun e => Returned (error_prefix ++ exn_str e)).

(** The warehouse call on its own: the job, then its rows. *)
Definition warehouse_call {Job : Type} (client : BigQueryClient Job) (query : string)
  : outcome (list pydict) :=
  query_job <- client_query client query ;;
  job_result client query_job.

(** The entries of the serialization, one per row, and the text
    [str([...])] makes of them. *)
Definition row_entries (rows : list pydict) : list string :=
  map (fun row => py_repr (VDict row)) rows.

Definition serialize_rows (rows : list pydict) : string :=
  "[" ++ PyStr.join ", " (row_entries rows) ++ "]".

(** A client for the scenarios: it knows one query, with a result of one
    row and one column, and refuses every other text. *)
Definition scenario_client : BigQueryClient string :=
  {| client_query := fun q =>
       if String.eqb q "SELECT 1" then Returned q
       else Raised (OtherException ("400 Syntax error: Unexpected identifier " ++ q));
     job_result := fun _ => Returned [[("f0_", VInt 1)]] |}.

(** ** Table Contract Providers *)

(** The keywords of the two membership tests [query in [...]] of the source. *)
Definition attrs4 : list string := ["clustering"; "partitioning"; "grouping"; "full_query"].
Definition attrs5 : list string :=
  ["clustering"; "partitioning"; "grouping"; "full_query"; "time_periods"].

(** [query in l] for a list of strings. *)
Definition in_list (query : string) (l : list string) : bool :=
  existsb (String.eqb query) l.

Definition no_information (query : string) : string :=
  "No information found for query: " ++ query.

(** The source defines [CallsForLSTool] twice; the second [class] statement
    rebinds the name, and it is that class [setup_agent] instantiates. *)
Module CallsForLSTool.

Definition name : string := "Calls_ForLS".
Definition description : string := "Provides information about the structure and calculations in the calls_forLS table.".

Definition fields : pydict :=
  [ ("ghl_location_id",
       VStr "Directly selected from the source table using: SELECT ghl_location_id");
    ("ghl_location_name",
       VStr "Directly selected from the source table using: SELECT ghl_location_name");
    ("call_date",
       VStr "Calculated using: PARSE_DATE('%Y-%m-%d', SUBSTR(call_started_at, 1, 10)) AS call_date");
    ("Total_Calls",
       VStr ("Calculated using: SUM(CASE WHEN call_direction = " ++ dq ++ "inbound" ++ dq ++ " AND first_time = " ++ dq ++ "True" ++ dq ++ " THEN 1 ELSE 0 END) AS Total_Calls"));
    ("Answered_Calls",
       VStr ("Calculated using: SUM(CASE WHEN call_direction = " ++ dq ++ "inbound" ++ dq ++ " AND first_time = " ++ dq ++ "True" ++ dq ++ " AND call_status = " ++ dq ++ "completed" ++ dq ++ " THEN 1 ELSE 0 END) AS Answered_Calls"));
    ("Missed_Calls",
       VStr ("Calculated using: SUM(CASE WHEN call_direction = " ++ dq ++ "inbound" ++ dq ++ " AND first_time = " ++ dq ++ "True" ++ dq ++ " AND call_status = " ++ dq ++ "no-answer" ++ dq ++ " THEN 1 ELSE 0 END) AS Missed_Calls")) ].

Definition full_query : string :=
  PyStr.lines
    [ EmptyString;
      "            CREATE OR REPLACE TABLE `the-pulse-405018.the_pulse.calls_forLS`";
      "            CLUSTER BY ghl_location_id AS";
      "            SELECT";
      "                ghl_location_id,";
      "                ghl_location_name,";
      "                PARSE_DATE('%Y-%m-%d', SUBSTR(call_started_at, 1, 10)) AS call_date,";
      "                SUM(CASE WHEN call_direction = " ++ dq ++ "inbound" ++ dq ++ " AND first_time = " ++ dq ++ "True" ++ dq ++ " THEN 1 ELSE 0 END) AS Total_Calls,";
      "                SUM(CASE WHEN call_direction = " ++ dq ++ "inbound" ++ dq ++ " AND first_time = " ++ dq ++ "True" ++ dq ++ " AND call_status = " ++ dq ++ "completed" ++ dq ++ " THEN 1 ELSE 0 END) AS Answered_Calls,";
      "                SUM(CASE WHEN call_direction = " ++ dq ++ "inbound" ++ dq ++ " AND first_time = " ++ dq ++ "True" ++ dq ++ " AND call_status = " ++ dq ++ "no-answer" ++ dq ++ " THEN 1 ELSE 0 END) AS Missed_Calls";
      "            FROM `the-pulse-405018.the_pulse.calls_bq`";
      "            GROUP BY ghl_location_id, ghl_location_name, call_started_at";
      "            " ].

Definition table_info : pydict :=
  [ ("name", VStr "calls_forLS");
    ("description", VStr "Provides information about call data.");
    ("fields", VDict fields);
    ("source_table", VStr "the-pulse-405018.the_pulse.calls_bq");
    ("clustering", VStr "CLUSTER BY ghl_location_id");
    ("partitioning", VStr "none");
    ("grouping", VStr "GROUP BY ghl_location_id, ghl_location_name, call_started_at");
    ("full_query", VStr full_query) ].
Definition _run (query : string) : outcome string :=
  let query := PyStr.lower query in
  if String.eqb query "structure" then Returned (py_str (VDict table_info))
  else
    fs <- dict_getitem table_info "fields" ;;
    is_field <- contains_key fs query ;;
    if is_field then
      v <- getitem fs query ;;
      Returned ("Field '" ++ query ++ "': " ++ py_str v)
    else if in_list query attrs4 then
      v <- dict_getitem table_info query ;;
      Returned (PyStr.capitalize query ++ ": " ++ py_str v)
    else if String.eqb query "source_table" then
      v <- dict_getitem table_info "source_table" ;;
      Returned ("Source Table: " ++ py_str v)
    else Returned (no_information query).

End CallsForLSTool.

Module AdExpenseDataForLSTool.

Definition name : string := "Ad_Expense_Data_ForLS".
Definition description : string := "Provides information about the structure and calculations in the ad_expense_data_forLS table.".

Definition fields : pydict :=
  [ ("ghl_location_id",
       VStr "Directly selected from the source table using: SELECT ghl_location_id");
    ("ghl_location_name",
       VStr "Directly selected from the source table using: SELECT ghl_location_name");
    ("formatted_expense_monthyear",
       VStr "Calculated using: DATE_TRUNC(expense_date, MONTH) AS formatted_expense_monthyear");
    ("ad_expense",
       VStr "Directly selected from the source table using: SELECT ad_expense") ].

Definition full_query : string :=
  PyStr.lines
    [ EmptyString;
      "            CREATE OR REPLACE TABLE `the-pulse-405018.the_pulse.ad_expense_data_forLS`";
      "            CLUSTER BY ghl_location_id, ghl_location_name AS";
      "            SELECT";
      "                ghl_location_id,";
      "                ghl_location_name,";
      "                id,";
      "                ad_expense,";
      "                expense_monthyear,";
      "                expense_month,";
      "                expense_year,";
      "                converted_leads,";
      "                forecasted_revenue,";
      "                created_on,";
      "                updated_on,";
      "                PARSE_DATE('%Y-%m-%d',";
      "                    CONCAT(";
      "                        RIGHT(expense_monthyear, 4),";
      "                        '-',";
      "                        LPAD(";
      "                            FORMAT_DATE('%m', PARSE_DATE('%B', LEFT(expense_monthyear, LENGTH(expense_monthyear) - 5))),";
      "                            2,";
      "                            '0'";
      "                        ),";
      "                        '-01'";
      "                    )";
      "                ) AS formatted_expense_monthyear";
      "            FROM `the-pulse-405018.the_pulse.ad_expense_data_bq`";
      "            " ].

Definition table_info : pydict :=
  [ ("name", VStr "ad_expense_data_forLS");
    ("description", VStr "Provides information about ad expense data.");
    ("fields", VDict fields);
    ("source_table", VStr "the-pulse-405018.the_pulse.ad_expense_data");
    ("partitioning", VStr "PARTITION BY formatted_expense_monthyear");
    ("clustering", VStr "CLUSTER BY ghl_location_id");
    ("full_query", VStr full_query) ].
Definition _run (query : string) : outcome string :=
  let query := PyStr.lower query in
  if String.eqb query "structure" then Returned (py_str (VDict table_info))
  else
    fs <- dict_getitem table_info "fields" ;;
    is_field <- contains_key fs query ;;
    if is_field then
      v <- getitem fs query ;;
      Returned ("Field '" ++ query ++ "': " ++ py_str v)
    else Returned (no_information query).

End AdExpenseDataForLSTool.

Module ReviewsForLSTool.

Definition name : string := "Reviews_ForLS".
Definition description : string := "Provides information about the structure and calculations in the reviews_forLS table.".

Definition fields : pydict :=
  [ ("id",
       VStr "Directly selected from the source table using: SELECT id");
    ("ghl_location_name",
       VStr "Directly selected from the source table using: SELECT ghl_location_name");
    ("ghl_location_id",
       VStr "Directly selected from the source table using: SELECT ghl_location_id");
    ("comments",
       VStr "Directly selected from the source table using: SELECT comments");
    ("rating",
       VStr "Directly selected from the source table using: SELECT rating");
    ("reviewer",
       VStr "Directly selected from the source table using: SELECT reviewer");
    ("google_review_id",
       VStr "Directly selected from the source table using: SELECT google_review_id");
    ("review_added_on",
       VStr "Directly selected from the source table using: SELECT review_added_on");
    ("reviews_conversation",
       VStr "Directly selected from the source table using: SELECT reviews_conversation");
    ("is_posted_on_fb",
       VStr "Directly selected from the source table using: SELECT is_posted_on_fb");
    ("user_id",
       VStr "Directly selected from the source table using: SELECT user_id");
    ("review_id",
       VStr "Directly selected from the source table using: SELECT review_id");
    ("locationid",
       VStr "Directly selected from the source table using: SELECT locationid");
    ("review_path",
       VStr "Directly selected from the source table using: SELECT review_path");
    ("ai_generated_response",
       VStr "Directly selected from the source table using: SELECT ai_generated_response");
    ("createdAt",
       VStr "Directly selected from the source table using: SELECT createdAt");
    ("updatedAt",
       VStr "Directly selected from the source table using: SELECT updatedAt");
    ("posted_on_fb",
       VStr "Directly selected from the source table using: SELECT posted_on_fb");
    ("posted_on_insta",
       VStr "Directly selected from the source table using: SELECT posted_on_insta");
    ("posted_on_other",
       VStr "Directly selected from the source table using: SELECT posted_on_other");
    ("posted_on_twitter",
       VStr "Directly selected from the source table using: SELECT posted_on_twitter");
    ("email",
       VStr "Directly selected from the source table using: SELECT email");
    ("five_star_rating",
       VStr ("Calculated using: CASE WHEN rating = " ++ dq ++ "FIVE" ++ dq ++ " THEN 1 ELSE 0 END AS five_star_rating"));
    ("one_to_four_star_rating",
       VStr ("Calculated using: CASE WHEN (rating != " ++ dq ++ "FIVE" ++ dq ++ " AND rating != " ++ dq ++ "ZERO" ++ dq ++ ") THEN 1 ELSE 0 END AS one_to_four_star_rating"));
    ("rating_2",
       VStr ("Calculated using: CASE WHEN rating = " ++ dq ++ "FIVE" ++ dq ++ " THEN 5 WHEN rating = " ++ dq ++ "FOUR" ++ dq ++ " THEN 4 WHEN rating = " ++ dq ++ "THREE" ++ dq ++ " THEN 3 WHEN rating = " ++ dq ++ "TWO" ++ dq ++ " THEN 2 WHEN rating = " ++ dq ++ "ONE" ++ dq ++ " THEN 1 WHEN rating = " ++ dq ++ "ZERO" ++ dq ++ " THEN 0 ELSE NULL END AS rating_2"));
    ("rating_3",
       VStr ("Calculated using: CASE WHEN rating = " ++ dq ++ "FIVE" ++ dq ++ " THEN " ++ dq ++ "5 star reviews" ++ dq ++ " ELSE " ++ dq ++ "others" ++ dq ++ " END AS rating_3")) ].

Definition full_query : string :=
  PyStr.lines
    [ EmptyString;
      "            CREATE OR REPLACE TABLE `the-pulse-405018.the_pulse.reviews_forLS` AS";
      "            SELECT";
      "                id,";
      "                ghl_location_name,";
      "                ghl_location_id,";
      "                comments,";
      "                rating,";
      "                reviewer,";
      "                google_review_id,";
      "                review_added_on,";
      "                reviews_conversation,";
      "                is_posted_on_fb,";
      "                user_id,";
      "                review_id,";
      "                locationid,";
      "                review_path,";
      "                ai_generated_response,";
      "                createdAt,";
      "                updatedAt,";
      "                posted_on_fb,";
      "                posted_on_insta,";
      "                posted_on_other,";
      "                posted_on_twitter,";
      "                email,";
      "                CASE WHEN rating = " ++ dq ++ "FIVE" ++ dq ++ " THEN 1 ELSE 0 END AS five_star_rating,";
      "                CASE WHEN (rating != " ++ dq ++ "FIVE" ++ dq ++ " AND rating != " ++ dq ++ "ZERO" ++ dq ++ ") THEN 1 ELSE 0 END AS one_to_four_star_rating,";
      "                CASE";
      "                    WHEN rating = " ++ dq ++ "FIVE" ++ dq ++ " THEN 5";
      "                    WHEN rating = " ++ dq ++ "FOUR" ++ dq ++ " THEN 4";
      "                    WHEN rating = " ++ dq ++ "THREE" ++ dq ++ " THEN 3";
      "                    WHEN rating = " ++ dq ++ "TWO" ++ dq ++ " THEN 2";
      "                    WHEN rating = " ++ dq ++ "ONE" ++ dq ++ " THEN 1";
      "                    WHEN rating = " ++ dq ++ "ZERO" ++ dq ++ " THEN 0";
      "                    ELSE NULL";
      "                END AS rating_2,";
      "                CASE WHEN rating = " ++ dq ++ "FIVE" ++ dq ++ " THEN " ++ dq ++ "5 star reviews" ++ dq ++ " ELSE " ++ dq ++ "others" ++ dq ++ " END AS rating_3";
      "            FROM `the-pulse-405018.the_pulse.reviews_bq`";
      "            " ].

Definition table_info : pydict :=
  [ ("name", VStr "reviews_forLS");
    ("description", VStr "Provides information about the structure and calculations in the reviews_forLS table.");
    ("fields", VDict fields);
    ("source_table", VStr "the-pulse-405018.the_pulse.reviews_bq");
    ("full_query", VStr full_query) ].
Definition _run (query : string) : outcome string :=
  let query := PyStr.lower query in
  if String.eqb query "structure" then Returned (py_str (VDict table_info))
  else
    fs <- dict_getitem table_info "fields" ;;
    is_field <- contains_key fs query ;;
    if is_field then
      v <- getitem fs query ;;
      Returned ("Field '" ++ query ++ "': " ++ py_str v)
    else Returned (no_information query).

End ReviewsForLSTool.

Module OpportunitiesForLSTool.

Definition name : string := "Opportunities_ForLS".
Definition description : string := "Provides information about the structure and calculations in the opportunities_forLS table.".

Definition fields : pydict :=
  [ ("ghl_location_id",
       VStr "Directly selected from the source table");
    ("ghl_location_name",
       VStr "Directly selected from the source table");
    ("contact_id",
       VStr "Directly selected from the source table");
    ("contact_email",
       VStr "Directly selected from the source table");
    ("contact_tags",
       VStr "Directly selected from the source table");
    ("opportunity_created_date",
       VStr "Directly selected from the source table");
    ("opportunity_id",
       VStr "Directly selected from the source table");
    ("Leads",
       VStr "CASE WHEN opportunity_id != '' THEN 1 ELSE 0 END");
    ("Qualified",
       VStr "CASE WHEN opportunity_id != '' AND opportunity_status != 'abandoned' THEN 1 ELSE 0 END");
    ("Retained",
       VStr "CASE WHEN opportunity_id != '' AND opportunity_stage_name = 'Retained' THEN 1 ELSE 0 END");
    ("Open_1",
       VStr "CASE WHEN opportunity_id != '' AND (opportunity_status = 'open' OR opportunity_status = 'open') THEN 1 ELSE 0 END");
    ("Lost",
       VStr "CASE WHEN opportunity_id != '' AND opportunity_status = 'lost' THEN 1 ELSE 0 END");
    ("Signed_Cases",
       VStr "CASE WHEN opportunity_id != '' AND opportunity_status = 'won' THEN 1 ELSE 0 END");
    ("opportunity_pipeline_name",
       VStr "Directly selected from the source table");
    ("opportunity_pipeline_id",
       VStr "Directly selected from the source table");
    ("opportunity_stage_name",
       VStr "Directly selected from the source table");
    ("opportunity_stage_id",
       VStr "Directly selected from the source table");
    ("opportunity_source",
       VStr "CASE WHEN opportunity_source = '' THEN 'Not Indicated' WHEN opportunity_source IS NULL THEN 'Not Indicated' WHEN opportunity_source = 'undefined' THEN 'Undefined' WHEN opportunity_source = 'LSA' THEN 'Undefined' ELSE opportunity_source END");
    ("Revenue",
       VStr "SELECT opportunity_value AS Revenue");
    ("Status",
       VStr "SELECT opportunity_status AS Status");
    ("opportunity_assigned_user",
       VStr "Directly selected from the source table");
    ("Location",
       VStr "CASE WHEN opportunity_location = '' THEN 'Not Indicated' WHEN opportunity_location IS NULL THEN 'Not Indicated' ELSE opportunity_location END");
    ("Medium",
       VStr "SELECT opportunity_medium AS Medium");
    ("Type",
       VStr "SELECT opportunity_case_type AS Type") ].

Definition full_query : string :=
  PyStr.lines
    [ EmptyString;
      "            CREATE OR REPLACE TABLE `the-pulse-405018.the_pulse.opportunities_forLS`";
      "            PARTITION BY opportunity_created_date";
      "            CLUSTER BY ghl_location_id, opportunity_source, Location, Medium";
      "            AS";
      "            SELECT";
      "                ghl_location_id,";
      "                ghl_location_name,";
      "                contact_id,";
      "                contact_email,";
      "                contact_tags,";
      "                opportunity_created_date,";
      "                opportunity_id,";
      "                CASE WHEN opportunity_id != " ++ dq ++ dq ++ " THEN 1 ELSE 0 END AS Leads,";
      "                CASE WHEN opportunity_id != " ++ dq ++ dq ++ " AND opportunity_status != " ++ dq ++ "abandoned" ++ dq ++ " THEN 1 ELSE 0 END AS Qualified,";
      "                CASE WHEN opportunity_id != " ++ dq ++ dq ++ " AND opportunity_stage_name = " ++ dq ++ "Retained" ++ dq ++ " THEN 1 ELSE 0 END AS Retained,";
      "                CASE WHEN opportunity_id != " ++ dq ++ dq ++ " AND (opportunity_status = " ++ dq ++ "open" ++ dq ++ " OR opportunity_status = " ++ dq ++ "open" ++ dq ++ ") THEN 1 ELSE 0 END AS Open_1, -- Not yet less retained";
      "                CASE WHEN opportunity_id != " ++ dq ++ dq ++ " AND opportunity_status = " ++ dq ++ "lost" ++ dq ++ " THEN 1 ELSE 0 END AS Lost,";
      "                CASE WHEN opportunity_id != " ++ dq ++ dq ++ " AND opportunity_status = " ++ dq ++ "won" ++ dq ++ " THEN 1 ELSE 0 END AS Signed_Cases,";
      "                opportunity_pipeline_name,";
      "                opportunity_pipeline_id,";
      "                opportunity_stage_name,";
      "                opportunity_stage_id,";
      "                CASE";
      "                    WHEN opportunity_source = " ++ dq ++ dq ++ " THEN " ++ dq ++ "Not Indicated" ++ dq;
      "                    WHEN opportunity_source IS NULL THEN " ++ dq ++ "Not Indicated" ++ dq;
      "                    WHEN opportunity_source = " ++ dq ++ "undefined" ++ dq ++ " THEN " ++ dq ++ "Undefined" ++ dq;
      "                    WHEN opportunity_source = " ++ dq ++ "LSA" ++ dq ++ " THEN " ++ dq ++ "Undefined" ++ dq;
      "                    ELSE opportunity_source";
      "                END AS opportunity_source,";
      "                opportunity_value AS Revenue,";
      "                opportunity_status AS Status,";
      "                opportunity_assigned_user,";
      "                CASE";
      "                    WHEN opportunity_location = " ++ dq ++ dq ++ " THEN " ++ dq ++ "Not Indicated" ++ dq;
      "                    WHEN opportunity_location IS NULL THEN " ++ dq ++ "Not Indicated" ++ dq;
      "                    ELSE opportunity_location";
      "                END AS Location,";
      "                opportunity_medium AS Medium,";
      "                opportunity_case_type AS Type";
      "            FROM `the-pulse-405018.the_pulse.lfgm_opportunities_bq`";
      "            UNION ALL";
      "            SELECT";
      "                " ++ dq ++ "ABC" ++ dq ++ " AS ghl_location_id,";
      "                " ++ dq ++ "ABC" ++ dq ++ " AS ghl_location_name,";
      "                " ++ dq ++ "ABC" ++ dq ++ " AS contact_id,";
      "                " ++ dq ++ "ABC" ++ dq ++ " AS contact_email,";
      "                " ++ dq ++ "ABC" ++ dq ++ " AS contact_tags,";
      "                NULL AS opportunity_created_date,";
      "                " ++ dq ++ dq ++ " AS opportunity_id,";
      "                1 AS Leads,";
      "                1 AS Qualified,";
      "                1 AS Retained,";
      "                1 AS Open_1,";
      "                1 AS Lost,";
      "                1 AS Signed_Cases,";
      "                " ++ dq ++ dq ++ " AS opportunity_pipeline_name,";
      "                " ++ dq ++ dq ++ " AS opportunity_pipeline_id,";
      "                " ++ dq ++ dq ++ " AS opportunity_stage_name,";
      "                " ++ dq ++ "Not Indicated" ++ dq ++ " AS opportunity_stage_id,";
      "                " ++ dq ++ "Not Indicated" ++ dq ++ " AS opportunity_source,";
      "                0 AS Revenue,";
      "                " ++ dq ++ dq ++ " AS Status,";
      "                " ++ dq ++ dq ++ " AS opportunity_assigned_user,";
      "                " ++ dq ++ "Not Indicated" ++ dq ++ " AS Location,";
      "                " ++ dq ++ "AS" ++ dq ++ " AS Medium,";
      "                " ++ dq ++ dq ++ " AS Type";
      "            " ].

Definition table_info : pydict :=
  [ ("name", VStr "opportunities_forLS");
    ("description", VStr "Provides information about opportunities data.");
    ("fields", VDict fields);
    ("source_table", VStr "the-pulse-405018.the_pulse.lfgm_opportunities_bq");
    ("partitioning", VStr "PARTITION BY opportunity_created_date");
    ("clustering", VStr "CLUSTER BY ghl_location_id, opportunity_source, Location, Medium");
    ("grouping", VStr "none");
    ("full_query", VStr full_query) ].
Definition _run (query : string) : outcome string :=
  let query := PyStr.lower query in
  if String.eqb query "structure" then Returned (py_str (VDict table_info))
  else
    fs <- dict_getitem table_info "fields" ;;
    is_field <- contains_key fs query ;;
    if is_field then
      v <- getitem fs query ;;
      Returned ("Field '" ++ query ++ "': " ++ py_str v)
    else if in_list query attrs4 then
      v <- dict_getitem table_info query ;;
      Returned (PyStr.capitalize query ++ ": " ++ py_str v)
    else if String.eqb query "source_table" then
      v <- dict_getitem table_info "source_table" ;;
      Returned ("Source Table: " ++ py_str v)
    else Returned (no_information query).

End OpportunitiesForLSTool.

Module AdExpenseDataMonthlyForLSTool.

Definition name : string := "Ad_Expense_Data_Monthly_ForLS".
Definition description : string := "Provides information about the structure and calculations in the ad_expense_data_monthly_forLS table.".

Definition fields : pydict :=
  [ ("ghl_location_id",
       VStr "Directly selected from the source table using: SELECT ghl_location_id");
    ("ghl_location_name",
       VStr "Directly selected from the source table using: SELECT ghl_location_name");
    ("formatted_expense_monthyear",
       VStr "Directly selected from the source table using: SELECT formatted_expense_monthyear");
    ("Month",
       VStr "Calculated using: 1, 3, 6, or 12 AS Month depending on the time period");
    ("ad_expense",
       VStr "Calculated using: SUM(ad_expense) AS ad_expense") ].

Definition time_periods : list pyval :=
  [ VStr "Last 1 month: WHERE DATE_TRUNC(formatted_expense_monthyear, MONTH) = DATE_TRUNC(DATE_SUB(CURRENT_DATE(), INTERVAL 1 MONTH), MONTH)";
    VStr "Last 3 months: WHERE formatted_expense_monthyear >= DATE_TRUNC(DATE_SUB(CURRENT_DATE(), INTERVAL 3 MONTH), MONTH) AND formatted_expense_monthyear < DATE_TRUNC(CURRENT_DATE(), MONTH)";
    VStr "Last 6 months: WHERE formatted_expense_monthyear >= DATE_TRUNC(DATE_SUB(CURRENT_DATE(), INTERVAL 6 MONTH), MONTH) AND formatted_expense_monthyear < DATE_TRUNC(CURRENT_DATE(), MONTH)";
    VStr "Last 12 months: WHERE formatted_expense_monthyear >= DATE_TRUNC(DATE_SUB(CURRENT_DATE(), INTERVAL 12 MONTH), MONTH) AND formatted_expense_monthyear < DATE_TRUNC(CURRENT_DATE(), MONTH)" ].

Definition full_query : string :=
  PyStr.lines
    [ EmptyString;
      "            CREATE OR REPLACE TABLE `the-pulse-405018.the_pulse.ad_expense_data_monthly_forLS` AS";
      "            -- For the last month";
      "            SELECT";
      "                ghl_location_id,";
      "                ghl_location_name,";
      "                formatted_expense_monthyear,";
      "                1 AS Month, -- Last month";
      "                SUM(ad_expense) AS ad_expense";
      "            FROM `the-pulse-405018.the_pulse.ad_expense_data_forLS`";
      "            WHERE DATE_TRUNC(formatted_expense_monthyear, MONTH) = DATE_TRUNC(DATE_SUB(CURRENT_DATE(), INTERVAL 1 MONTH), MONTH)";
      "            GROUP BY ghl_location_id, ghl_location_name, formatted_expense_monthyear";
      EmptyString;
      "            UNION ALL";
      EmptyString;
      "            -- For the last 3 months";
      "            SELECT";
      "                ghl_location_id,";
      "                ghl_location_name,";
      "                formatted_expense_monthyear,";
      "                3 AS Month, -- Last 3 months";
      "                SUM(ad_expense) AS ad_expense";
      "            FROM `the-pulse-405018.the_pulse.ad_expense_data_forLS`";
      "            WHERE formatted_expense_monthyear >= DATE_TRUNC(DATE_SUB(CURRENT_DATE(), INTERVAL 3 MONTH), MONTH)";
      "              AND formatted_expense_monthyear < DATE_TRUNC(CURRENT_DATE(), MONTH)";
      "            GROUP BY ghl_location_id, ghl_location_name, formatted_expense_monthyear";
      EmptyString;
      "            UNION ALL";
      EmptyString;
      "            -- For the last 6 months";
      "            SELECT";
      "                ghl_location_id,";
      "                ghl_location_name,";
      "                formatted_expense_monthyear,";
      "                6 AS Month, -- Last 6 months";
      "                SUM(ad_expense) AS ad_expense";
      "            FROM `the-pulse-405018.the_pulse.ad_expense_data_forLS`";
      "            WHERE formatted_expense_monthyear >= DATE_TRUNC(DATE_SUB(CURRENT_DATE(), INTERVAL 6 MONTH), MONTH)";
      "              AND formatted_expense_monthyear < DATE_TRUNC(CURRENT_DATE(), MONTH)";
      "            GROUP BY ghl_location_id, ghl_location_name, formatted_expense_monthyear";
      EmptyString;
      "            UNION ALL";
      EmptyString;
      "            -- For the last 12 months";
      "            SELECT";
      "                ghl_location_id,";
      "                ghl_location_name,";
      "                formatted_expense_monthyear,";
      "                12 AS Month, -- Last 12 months";
      "                SUM(ad_expense) AS ad_expense";
      "            FROM `the-pulse-405018.the_pulse.ad_expense_data_forLS`";
      "            WHERE formatted_expense_monthyear >= DATE_TRUNC(DATE_SUB(CURRENT_DATE(), INTERVAL 12 MONTH), MONTH)";
      "              AND formatted_expense_monthyear < DATE_TRUNC(CURRENT_DATE(), MONTH)";
      "            GROUP BY ghl_location_id, ghl_location_name, formatted_expense_monthyear";
      "            " ].

Definition table_info : pydict :=
  [ ("name", VStr "ad_expense_data_monthly_forLS");
    ("description", VStr "Provides information about the structure and calculations in the ad_expense_data_monthly_forLS table.");
    ("fields", VDict fields);
    ("source_table", VStr "the-pulse-405018.the_pulse.ad_expense_data_forLS");
    ("time_periods", VList time_periods);
    ("grouping", VStr "GROUP BY ghl_location_id, ghl_location_name, formatted_expense_monthyear");
    ("partitioning", VStr "none");
    ("clustering", VStr "none");
    ("full_query", VStr full_query) ].
Definition _run (query : string) : outcome string :=
  let query := PyStr.lower query in
  if String.eqb query "structure" then Returned (py_str (VDict table_info))
  else
    fs <- dict_getitem table_info "fields" ;;
    is_field <- contains_key fs query ;;
    if is_field then
      v <- getitem fs query ;;
      Returned ("Field '" ++ query ++ "': " ++ py_str v)
    else if in_list query attrs5 then
      v <- dict_getitem table_info query ;;
      Returned (PyStr.capitalize query ++ ": " ++ py_str v)
    else if String.eqb query "source_table" then
      v <- dict_getitem table_info "source_table" ;;
      Returned ("Source Table: " ++ py_str v)
    else Returned (no_information query).

End AdExpenseDataMonthlyForLSTool.

Module OpportunitiesMonthlyForLSTool.

Definition name : string := "Opportunities_Monthly_ForLS".
Definition description : string := "Provides information about the structure and calculations in the opportunities_monthly_forLS table.".

Definition fields : pydict :=
  [ ("ghl_location_id",
       VStr "Directly selected from the source table using: SELECT ghl_location_id");
    ("ghl_location_name",
       VStr "Directly selected from the source table using: SELECT ghl_location_name");
    ("opportunity_created_date",
       VStr "Directly selected from the source table using: SELECT opportunity_created_date");
    ("Month",
       VStr "Calculated using: 1, 3, 6, or 12 AS Month depending on the time period");
    ("Leads",
       VStr "Calculated using: SUM(Leads) AS Leads");
    ("Qualified",
       VStr "Calculated using: SUM(Qualified) AS Qualified");
    ("Retained",
       VStr "Calculated using: SUM(Retained) AS Retained");
    ("Lost",
       VStr "Calculated using: SUM(Lost) AS Lost");
    ("Signed_Cases",
       VStr "Calculated using: SUM(Signed_Cases) AS Signed_Cases");
    ("Revenue",
       VStr "Calculated using: SUM(Revenue) AS Revenue") ].

Definition time_periods : list pyval :=
  [ VStr "Last 1 month: WHERE DATE_TRUNC(opportunity_created_date, MONTH) = DATE_TRUNC(DATE_SUB(CURRENT_DATE(), INTERVAL 1 MONTH), MONTH)";
    VStr "Last 3 months: WHERE opportunity_created_date >= DATE_TRUNC(DATE_SUB(CURRENT_DATE(), INTERVAL 3 MONTH), MONTH) AND opportunity_created_date < DATE_TRUNC(CURRENT_DATE(), MONTH)";
    VStr "Last 6 months: WHERE opportunity_created_date >= DATE_TRUNC(DATE_SUB(CURRENT_DATE(), INTERVAL 6 MONTH), MONTH) AND opportunity_created_date < DATE_TRUNC(CURRENT_DATE(), MONTH)";
    VStr "Last 12 months: WHERE opportunity_created_date >= DATE_TRUNC(DATE_SUB(CURRENT_DATE(), INTERVAL 12 MONTH), MONTH) AND opportunity_created_date < DATE_TRUNC(CURRENT_DATE(), MONTH)" ].

Definition full_query : string :=
  PyStr.lines
    [ EmptyString;
      "            CREATE OR REPLACE TABLE `the-pulse-405018.the_pulse.opportunities_monthly_forLS` AS";
      "            SELECT";
      "                ghl_location_id,";
      "                ghl_location_name,";
      "                opportunity_created_date,";
      "                1 AS Month, -- Last month";
      "                SUM(Leads) AS Leads,";
      "                SUM(Qualified) AS Qualified,";
      "                SUM(Retained) AS Retained,";
      "                SUM(Lost) AS Lost,";
      "                SUM(Signed_Cases) AS Signed_Cases,";
      "                SUM(Revenue) AS Revenue";
      "            FROM `the-pulse-405018.the_pulse.opportunities_forLS`";
      "            WHERE DATE_TRUNC(opportunity_created_date, MONTH) = DATE_TRUNC(DATE_SUB(CURRENT_DATE(), INTERVAL 1 MONTH), MONTH)";
      "            GROUP BY ghl_location_id, ghl_location_name, opportunity_created_date";
      EmptyString;
      "            UNION ALL";
      EmptyString;
      "            SELECT";
      "                ghl_location_id,";
      "                ghl_location_name,";
      "                opportunity_created_date,";
      "                3 AS Month, -- Last 3 months";
      "                SUM(Leads) AS Leads,";
      "                SUM(Qualified) AS Qualified,";
      "                SUM(Retained) AS Retained,";
      "                SUM(Lost) AS Lost,";
      "                SUM(Signed_Cases) AS Signed_Cases,";
      "                SUM(Revenue) AS Revenue";
      "            FROM `the-pulse-405018.the_pulse.opportunities_forLS`";
      "            WHERE opportunity_created_date >= DATE_TRUNC(DATE_SUB(CURRENT_DATE(), INTERVAL 3 MONTH), MONTH)";
      "              AND opportunity_created_date < DATE_TRUNC(CURRENT_DATE(), MONTH)";
      "            GROUP BY ghl_location_id, ghl_location_name, opportunity_created_date";
      EmptyString;
      "            UNION ALL";
      EmptyString;
      "            SELECT";
      "                ghl_location_id,";
      "                ghl_location_name,";
      "                opportunity_created_date,";
      "                6 AS Month, -- Last 6 months";
      "                SUM(Leads) AS Leads,";
      "                SUM(Qualified) AS Qualified,";
      "                SUM(Retained) AS Retained,";
      "                SUM(Lost) AS Lost,";
      "                SUM(Signed_Cases) AS Signed_Cases,";
      "                SUM(Revenue) AS Revenue";
      "            FROM `the-pulse-405018.the_pulse.opportunities_forLS`";
      "            WHERE opportunity_created_date >= DATE_TRUNC(DATE_SUB(CURRENT_DATE(), INTERVAL 6 MONTH), MONTH)";
      "              AND opportunity_created_date < DATE_TRUNC(CURRENT_DATE(), MONTH)";
      "            GROUP BY ghl_location_id, ghl_location_name, opportunity_created_date";
      EmptyString;
      "            UNION ALL";
      EmptyString;
      "            SELECT";
      "                ghl_location_id,";
      "                ghl_location_name,";
      "                opportunity_created_date,";
      "                12 AS Month, -- Last 12 months";
      "                SUM(Leads) AS Leads,";
      "                SUM(Qualified) AS Qualified,";
      "                SUM(Retained) AS Retained,";
      "                SUM(Lost) AS Lost,";
      "                SUM(Signed_Cases) AS Signed_Cases,";
      "                SUM(Revenue) AS Revenue";
      "            FROM `the-pulse-405018.the_pulse.opportunities_forLS`";
      "            WHERE opportunity_created_date >= DATE_TRUNC(DATE_SUB(CURRENT_DATE(), INTERVAL 12 MONTH), MONTH)";
      "              AND opportunity_created_date < DATE_TRUNC(CURRENT_DATE(), MONTH)";
      "            GROUP BY ghl_location_id, ghl_location_name, opportunity_created_date";
      "            " ].

Definition table_info : pydict :=
  [ ("name", VStr "opportunities_monthly_forLS");
    ("description", VStr "Provides information about the structure and calculations in the opportunities_monthly_forLS table.");
    ("fields", VDict fields);
    ("source_table", VStr "the-pulse-405018.the_pulse.opportunities_forLS");
    ("time_periods", VList time_periods);
    ("grouping", VStr "GROUP BY ghl_location_id, ghl_location_name, opportunity_created_date");
    ("partitioning", VStr "none");
    ("clustering", VStr "none");
    ("full_query", VStr full_query) ].
Definition _run (query : string) : outcome string :=
  let query := PyStr.lower query in
  if String.eqb query "structure" then Returned (py_str (VDict table_info))
  else
    fs <- dict_getitem table_info "fields" ;;
    is_field <- contains_key fs query ;;
    if is_field then
      v <- getitem fs query ;;
      Returned ("Field '" ++ query ++ "': " ++ py_str v)
    else if String.eqb query "time_periods" then
      v <- dict_getitem table_info "time_periods" ;;
      Returned ("Time Periods: " ++ py_str v)
    else if String.eqb query "grouping" then
      v <- dict_getitem table_info "grouping" ;;
      Returned ("Grouping: " ++ py_str v)
    else if String.eqb query "full_query" then
      v <- dict_getitem table_info "full_query" ;;
      Returned ("Full Query: " ++ py_str v)
    else Returned (no_information query).

End OpportunitiesMonthlyForLSTool.

Module CallsMonthlyForLSTool.

Definition name : string := "Calls_Monthly_ForLS".
Definition description : string := "Provides information about the structure and calculations in the calls_monthly_forLS table.".

Definition fields : pydict :=
  [ ("ghl_location_id",
       VStr "Directly selected from the source table using: SELECT ghl_location_id");
    ("ghl_location_name",
       VStr "Directly selected from the source table using: SELECT ghl_location_name");
    ("call_date",
       VStr "Directly selected from the source table using: SELECT call_date");
    ("Month",
       VStr "Calculated using: 1, 3, 6, or 12 AS Month depending on the time period");
    ("Total_Calls",
       VStr "Calculated using: SUM(Total_Calls) AS Total_Calls");
    ("Answered_Calls",
       VStr "Calculated using: SUM(Answered_Calls) AS Answered_Calls") ].

Definition time_periods : list pyval :=
  [ VStr "Last 1 month: WHERE DATE_TRUNC(call_date, MONTH) = DATE_TRUNC(DATE_SUB(CURRENT_DATE(), INTERVAL 1 MONTH), MONTH)";
    VStr "Last 3 months: WHERE call_date >= DATE_TRUNC(DATE_SUB(CURRENT_DATE(), INTERVAL 3 MONTH), MONTH) AND call_date < DATE_TRUNC(CURRENT_DATE(), MONTH)";
    VStr "Last 6 months: WHERE call_date >= DATE_TRUNC(DATE_SUB(CURRENT_DATE(), INTERVAL 6 MONTH), MONTH) AND call_date < DATE_TRUNC(CURRENT_DATE(), MONTH)";
    VStr "Last 12 months: WHERE call_date >= DATE_TRUNC(DATE_SUB(CURRENT_DATE(), INTERVAL 12 MONTH), MONTH) AND call_date < DATE_TRUNC(CURRENT_DATE(), MONTH)" ].

Definition full_query : string :=
  PyStr.lines
    [ EmptyString;
      "            CREATE OR REPLACE TABLE `the-pulse-405018.the_pulse.calls_monthly_forLS` AS";
      "            -- For the last month";
      "            SELECT";
      "                ghl_location_id,";
      "                ghl_location_name,";
      "                call_date,";
      "                1 AS Month, -- Last month";
      "                SUM(Total_Calls) AS Total_Calls,";
      "                SUM(Answered_Calls) AS Answered_Calls";
      "            FROM `the-pulse-405018.the_pulse.calls_forLS`";
      "            WHERE DATE_TRUNC(call_date, MONTH) = DATE_TRUNC(DATE_SUB(CURRENT_DATE(), INTERVAL 1 MONTH), MONTH)";
      "            GROUP BY ghl_location_id, ghl_location_name, call_date";
      EmptyString;
      "            UNION ALL";
      EmptyString;
      "            -- For the last 3 months";
      "            SELECT";
      "                ghl_location_id,";
      "                ghl_location_name,";
      "                call_date,";
      "                3 AS Month, -- Last 3 months";
      "                SUM(Total_Calls) AS Total_Calls,";
      "                SUM(Answered_Calls) AS Answered_Calls";
      "            FROM `the-pulse-405018.the_pulse.calls_forLS`";
      "            WHERE call_date >= DATE_TRUNC(DATE_SUB(CURRENT_DATE(), INTERVAL 3 MONTH), MONTH)";
      "              AND call_date < DATE_TRUNC(CURRENT_DATE(), MONTH)";
      "            GROUP BY ghl_location_id, ghl_location_name, call_date";
      EmptyString;
      "            UNION ALL";
      EmptyString;
      "            SELECT";
      "                ghl_location_id,";
      "                ghl_location_name,";
      "                call_date,";
      "                6 AS Month, -- Last 6 months";
      "                SUM(Total_Calls) AS Total_Calls,";
      "                SUM(Answered_Calls) AS Answered_Calls";
      "            FROM `the-pulse-405018.the_pulse.calls_forLS`";
      "            WHERE call_date >= DATE_TRUNC(DATE_SUB(CURRENT_DATE(), INTERVAL 6 MONTH), MONTH)";
      "              AND call_date < DATE_TRUNC(CURRENT_DATE(), MONTH)";
      "            GROUP BY ghl_location_id, ghl_location_name, call_date";
      EmptyString;
      "            UNION ALL";
      EmptyString;
      "            SELECT";
      "                ghl_location_id,";
      "                ghl_location_name,";
      "                call_date,";
      "                12 AS Month, -- Last 12 months";
      "                SUM(Total_Calls) AS Total_Calls,";
      "                SUM(Answered_Calls) AS Answered_Calls";
      "            FROM `the-pulse-405018.the_pulse.calls_forLS`";
      "            WHERE call_date >= DATE_TRUNC(DATE_SUB(CURRENT_DATE(), INTERVAL 12 MONTH), MONTH)";
      "              AND call_date < DATE_TRUNC(CURRENT_DATE(), MONTH)";
      "            GROUP BY ghl_location_id, ghl_location_name, call_date";
      "            " ].

Definition table_info : pydict :=
  [ ("name", VStr "calls_monthly_forLS");
    ("description", VStr "Provides information about the structure and calculations in the calls_monthly_forLS table.");
    ("fields", VDict fields);
    ("source_table", VStr "the-pulse-405018.the_pulse.calls_forLS");
    ("time_periods", VList time_periods);
    ("grouping", VStr "GROUP BY ghl_location_id, ghl_location_name, call_date");
    ("partitioning", VStr "none");
    ("clustering", VStr "none");
    ("full_query", VStr full_query) ].
Definition _run (query : string) : outcome string :=
  let query := PyStr.lower query in
  if String.eqb query "structure" then Returned (py_str (VDict table_info))
  else
    fs <- dict_getitem table_info "fields" ;;
    is_field <- contains_key fs query ;;
    if is_field then
      v <- getitem fs query ;;
      Returned ("Field '" ++ query ++ "': " ++ py_str v)
    else if String.eqb query "time_periods" then
      v <- dict_getitem table_info "time_periods" ;;
      Returned ("Time Periods: " ++ py_str v)
    else if String.eqb query "grouping" then
      v <- dict_getitem table_info "grouping" ;;
      Returned ("Grouping: " ++ py_str v)
    else if String.eqb query "full_query" then
      v <- dict_getitem table_info "full_query" ;;
      Returned ("Full Query: " ++ py_str v)
    else Returned (no_information query).

End CallsMonthlyForLSTool.

(** The provider classes that exist once the module is loaded. *)
Inductive Provider : Type :=
| Calls
| Opportunities
| AdExpenseData
| Reviews
| AdExpenseDataMonthly
| OpportunitiesMonthly
| CallsMonthly.

Definition all_providers : list Provider :=
  [Calls; Opportunities; AdExpenseData; Reviews;
   AdExpenseDataMonthly; OpportunitiesMonthly; CallsMonthly].

Definition provider_name (p : Provider) : string :=
  match p with
  | Calls => CallsForLSTool.name
  | Opportunities => OpportunitiesForLSTool.name
  | AdExpenseData => AdExpenseDataForLSTool.name
  | Reviews => ReviewsForLSTool.name
  | AdExpenseDataMonthly => AdExpenseDataMonthlyForLSTool.name
  | OpportunitiesMonthly => OpportunitiesMonthlyForLSTool.name
  | CallsMonthly => CallsMonthlyForLSTool.name
  end.

Definition provider_table_info (p : Provider) : pydict :=
  match p with
  | Calls => CallsForLSTool.table_info
  | Opportunities => OpportunitiesForLSTool.table_info
  | AdExpenseData => AdExpenseDataForLSTool.table_info
  | Reviews => ReviewsForLSTool.table_info
  | AdExpenseDataMonthly => AdExpenseDataMonthlyForLSTool.table_info
  | OpportunitiesMonthly => OpportunitiesMonthlyForLSTool.table_info
  | CallsMonthly => CallsMonthlyForLSTool.table_info
  end.

Definition provider_fields (p : Provider) : pydict :=
  match p with
  | Calls => CallsForLSTool.fields
  | Opportunities => OpportunitiesForLSTool.fields
  | AdExpenseData => AdExpenseDataForLSTool.fields
  | Reviews => ReviewsForLSTool.fields
  | AdExpenseDataMonthly => AdExpenseDataMonthlyForLSTool.fields
  | OpportunitiesMonthly => OpportunitiesMonthlyForLSTool.fields
  | CallsMonthly => CallsMonthlyForLSTool.fields
  end.

Definition provider_full_query (p : Provider) : string :=
  match p with
  | Calls => CallsForLSTool.full_query
  | Opportunities => OpportunitiesForLSTool.full_query
  | AdExpenseData => AdExpenseDataForLSTool.full_query
  | Reviews => ReviewsForLSTool.full_query
  | AdExpenseDataMonthly => AdExpenseDataMonthlyForLSTool.full_query
  | OpportunitiesMonthly => OpportunitiesMonthlyForLSTool.full_query
  | CallsMonthly => CallsMonthlyForLSTool.full_query
  end.

(** The query operation of a provider: its class's [_run]. *)
Definition provider_run (p : Provider) : string -> outcome string :=
  match p with
  | Calls => CallsForLSTool._run
  | Opportunities => OpportunitiesForLSTool._run
  | AdExpenseData => AdExpenseDataForLSTool._run
  | Reviews => ReviewsForLSTool._run
  | AdExpenseDataMonthly => AdExpenseDataMonthlyForLSTool._run
  | OpportunitiesMonthly => OpportunitiesMonthlyForLSTool._run
  | CallsMonthly => CallsMonthlyForLSTool._run
  end.


(** The label an attribute answer starts with, where a provider answers
    the keyword at all. *)
Definition attribute_label (p : Provider) (topic : string) : string :=
  match p with
  | OpportunitiesMonthly | CallsMonthly =>
      if String.eqb topic "time_periods" then "Time Periods"
      else if String.eqb topic "grouping" then "Grouping"
      else "Full Query"
  | _ =>
      if String.eqb topic "source_table" then "Source Table"
      else PyStr.capitalize topic
  end.

(** The attribute keywords a provider's [_run] has a branch for. *)
Definition handled_attributes (p : Provider) : list string :=
  match p with
  | Calls | Opportunities => attrs4 ++ ["source_table"]
  | AdExpenseData | Reviews => []
  | AdExpenseDataMonthly => attrs5 ++ ["source_table"]
  | OpportunitiesMonthly | CallsMonthly => ["time_periods"; "grouping"; "full_query"]
  end.

(** The shape the seven [_run] methods share, on the lower-cased topic;
    [provider_run_answer] below proves that each method computes it. *)
Definition answer (p : Provider) (query : string) : outcome string :=
  if String.eqb query "structure" then
    Returned (py_repr (VDict (provider_table_info p)))
  else if dict_contains (provider_fields p) query then
    v <- dict_getitem (provider_fields p) query ;;
    Returned ("Field '" ++ query ++ "': " ++ py_str v)
  else if in_list query (handled_attributes p) then
    v <- dict_getitem (provider_table_info p) query ;;
    Returned (attribute_label p query ++ ": " ++ py_str v)
  else Returned (no_information query).

(** The form of a field answer. *)
Definition field_answer (query : string) (provenance : pyval) : string :=
  "Field '" ++ query ++ "': " ++ py_str provenance.

(** Two topics that differ in letter case only. *)
Definition same_ignoring_case (a b : string) : Prop := PyStr.lower a = PyStr.lower b.

(** ** Tool Registry and Agent Controller *)

Record Tool : Type :=
  { tool_name : string;
    tool_func : string -> outcome string;
    tool_description : string }.

Record ChatOpenAI : Type := { temperature : Z; model : string }.

Inductive AgentType : Type := ZERO_SHOT_REACT_DESCRIPTION.

(** What [initialize_agent] is given: the agent object holds these. *)
Record AgentExecutor : Type :=
  { agent_tools : list Tool;
    agent_llm : ChatOpenAI;
    agent_type : AgentType;
    agent_verbose : bool;
    max_iterations : nat }.

Definition initialize_agent (tools : list Tool) (llm : ChatOpenAI) (agent : AgentType)
    (verbose : bool) (max_iterations : nat) : AgentExecutor :=
  {| agent_tools := tools; agent_llm := llm; agent_type := agent;
     agent_verbose := verbose; max_iterations := max_iterations |}.

(** [setup_agent], from the tool list on; the warehouse client it builds
    from the stored credentials is taken as an argument. *)
Definition setup_agent {Job : Type} (bigquery_client : BigQueryClient Job)
    (openai_api_key : string) : AgentExecutor :=
  let tools :=
    [ {| tool_name := "BigQuery";
         tool_func := execute_bigquery bigquery_client;
         tool_description :=
           "Executes SQL queries on BigQuery. Input should be a valid SQL query string." |};
      {| tool_name := "Data Schema Roadmap";
         tool_func := fun q =>
           fst (DataSchemaRoadmapTool._run DataSchemaRoadmapTool.__init__ q);
         tool_description :=
           "Provides information about the data schema roadmap for Looker Studio visualizations" |};
      {| tool_name := "Calls_ForLS";
         tool_func := CallsForLSTool._run;
         tool_description :=
           "Provides information about call data from the calls_forLS table." |};
      {| tool_name := "Opportunities_ForLS";
         tool_func := OpportunitiesForLSTool._run;
         tool_description :=
           "Provides information about opportunity data from the opportunities_forLS table." |};
      {| tool_name := "Ad_Expense_Data_ForLS";
         tool_func := AdExpenseDataForLSTool._run;
         tool_description :=
           "Provides information about ad expense data from the ad_expense_data_forLS table." |};
      {| tool_name := "Reviews_ForLS";
         tool_func := ReviewsForLSTool._run;
         tool_description :=
           "Provides information about review data from the reviews_forLS table." |};
      {| tool_name := "Ad_Expense_Data_Monthly_ForLS";
         tool_func := AdExpenseDataMonthlyForLSTool._run;
         tool_description :=
           "Provides information about monthly ad expense data from the ad_expense_data_monthly_forLS table." |};
      {| tool_name := "Opportunities_Monthly_ForLS";
         tool_func := OpportunitiesMonthlyForLSTool._run;
         tool_description :=
           "Provides information about monthly opportunities data from the opportunities_monthly_forLS table." |};
      {| tool_name := "Calls_Monthly_ForLS";
         tool_func := CallsMonthlyForLSTool._run;
         tool_description :=
           "Provides information about monthly call data from the calls_monthly_forLS table." |} ] in
  let llm := {| temperature := 0; model := "gpt-4" |} in
  initialize_agent tools llm ZERO_SHOT_REACT_DESCRIPTION true 5.

(** The f-string of [run_agent]: the text before and after [{prompt}]. *)
Definition instruction_head : string :=
  PyStr.lines
    [ "Use the following steps to answer this question about the 'the_pulse' dataset";
      "        in the 'the-pulse-405018' project:";
      "        " ].

Definition instruction_tail : string :=
  PyStr.lines
    [ EmptyString;
      "        Steps:";
      "        1. Check the Data Schema Roadmap tool and identify the relevant table(s) for the query. Use the command " ++ dq ++ "list tables" ++ dq ++ ".";
      "        2. After identifying the relevant table, select the appropriate tool from the tool roster.";
      "        3. To use the tool, do it like this:";
      "        - For information about a specific field: `ToolName._run(" ++ dq ++ "field_name" ++ dq ++ ")`";
      "        - For the table structure: `ToolName._run(" ++ dq ++ "structure" ++ dq ++ ")`";
      "        - For the full SQL query: `ToolName._run(" ++ dq ++ "full_query" ++ dq ++ ")`";
      "        - For clustering information: `ToolName._run(" ++ dq ++ "clustering" ++ dq ++ ")`";
      "        - For partitioning information: `ToolName._run(" ++ dq ++ "partitioning" ++ dq ++ ")`";
      "        - For grouping information: `ToolName._run(" ++ dq ++ "grouping" ++ dq ++ ")`";
      "        - For source table information: `ToolName._run(" ++ dq ++ "source_table" ++ dq ++ ")`";
      "        - For time periods (if applicable): `ToolName._run(" ++ dq ++ "time_periods" ++ dq ++ ")`";
      "        4. Identify in the tool the SQL query or queries used to create the data for the looker studio visualization.";
      "        5. Use the Bigquery tool to execute the query as described";
      "        6. Analyze the results for relevant information.";
      "        7. Interpret the results and provide a natural language answer.";
      "        Remember:";
      "        - Always use proper BigQuery syntax and table references.";
      "        - When formatting SQL queries, ensure that the syntax is correct and there are no extraneous characters.";
      "        - Do NOT add " ++ dq ++ "```sql" ++ dq ++ " before the query or " ++ dq ++ "```" ++ dq ++ " after. Instead, send the query directly.";
      "        - YOUR ACTION INPUT FOR BIG QUERY TOOL SHOULD NOT BE PRECEDED BY ```sql OR ``` AND SHOULD NOT END WITH ```. DOUBLE CHECK IT BEFORE SENDING";
      "        - ATTEMPT TO REPLICATE THE ORIGINAL QUERY INSTEAD OF MAKING YOUR OWN. ONLY MAKE YOUR OWN IF YOU CANNOT QUERY EXACTLY AS IT IS DONE IN THE TOOL.";
      "        - If you need to modify the original query, make sure to preserve the essential structure and only change the necessary parts to answer the specific question.";
      "        - Always consider the partitioning, clustering, and grouping of the table when writing or modifying queries for optimal performance.";
      "        " ].

Definition instruction (prompt : string) : string :=
  instruction_head ++ prompt ++ instruction_tail.

Section AgentController.

(** The think/act loop is the library's: [agent.run(text)] either returns
    the answer or raises. *)
Variable agent_run : AgentExecutor -> string -> outcome string.

Definition run_agent (agent : AgentExecutor) (prompt : string) : outcome string :=
  try_except
    (result <- agent_run agent (instruction prompt) ;;
     Returned result)
    (fun e => Returned (error_prefix ++ exn_str e)).

End AgentController.

(** An engine that answers with the text it was given, which shows what
    [run_agent] hands to the engine. *)
Definition echo_engine (agent : AgentExecutor) (text : string) : outcome string :=
  Returned text.

(** An engine for the scenarios: the network is down. *)
Definition unreachable_engine (agent : AgentExecutor) (text : string) : outcome string :=
  Raised (OtherException "Connection error.").

(** ** Presentation shell: session state, login page and chat page *)

(** One entry of the transcript: the dict with the keys ["role"] and
    ["content"]. *)
Record Message : Type := { role : string; content : string }.

(** [st.session_state.app_state] *)
Record AppState : Type :=
  { app_logged_in : bool;
    app_messages : list Message;
    app_openai_api_key : string;
    app_agent : option AgentExecutor }.

Definition initial_app_state : AppState :=
  {| app_logged_in := false;
     app_messages := [];
     app_openai_api_key := EmptyString;
     app_agent := None |}.

(** The calls on the page, in the order the code makes them. *)
Inductive UiCall : Type :=
| st_title (text : string)
| st_markdown (text : string)
| st_text_input (label : string)
| st_button (label : string)
| st_chat_message (name : string)
| st_chat_input (placeholder : string)
| st_empty
| st_spinner (text : string)
| placeholder_markdown (text : string)
| st_error (text : string)
| st_success (text : string).

(** What the shell functions read and write: the process environment
    variable, the value of the key widget, the application state and the
    page. *)
Record Session : Type :=
  { environ_openai_api_key : option string;
    widget_openai_api_key : string;
    app_state : AppState;
    screen : list UiCall }.

Definition initial_session : Session :=
  {| environ_openai_api_key := None;
     widget_openai_api_key := EmptyString;
     app_state := initial_app_state;
     screen := [] |}.

(** A shell computation: it may raise, and the session it leaves behind is
    the one it had written when it did. *)
Definition Shell (A : Type) : Type := Session -> outcome A * Session.

Definition shell_ret {A : Type} (a : A) : Shell A := fun s => (Returned a, s).

Definition shell_bind {A B : Type} (m : Shell A) (k : A -> Shell B) : Shell B :=
  fun s =>
    match m s with
    | (Returned a, s') => k a s'
    | (Raised e, s') => (Raised e, s')
    end.

Definition shell_seq {A B : Type} (m : Shell A) (k : Shell B) : Shell B :=
  shell_bind m (fun _ => k).

(** [try: body  except Exception as e: handler(e)], on the session. *)
Definition shell_try {A : Type} (body : Shell A) (handler : exn -> Shell A) : Shell A :=
  fun s =>
    match body s with
    | (Returned a, s') => (Returned a, s')
    | (Raised e, s') => handler e s'
    end.

(** A computation without effect on the session. *)
Definition shell_lift {A : Type} (o : outcome A) : Shell A := fun s => (o, s).

Notation "x <~ m ;; k" := (shell_bind m (fun x => k))
  (at level 61, m at next level, right associativity) : py_scope.
Notation "m >>> k" := (shell_seq m k)
  (at level 61, right associativity) : py_scope.

Definition show (c : UiCall) : Shell unit :=
  fun s =>
    (Returned tt,
     {| environ_openai_api_key := environ_openai_api_key s;
        widget_openai_api_key := widget_openai_api_key s;
        app_state := app_state s;
        screen := screen s ++ [c] |}).

Definition get_app : Shell AppState := fun s => (Returned (app_state s), s).

Definition get_widget : Shell string := fun s => (Returned (widget_openai_api_key s), s).

Definition modify_app (f : AppState -> AppState) : Shell unit :=
  fun s =>
    (Returned tt,
     {| environ_openai_api_key := environ_openai_api_key s;
        widget_openai_api_key := widget_openai_api_key s;
        app_state := f (app_state s);
        screen := screen s |}).

Definition set_widget (key : string) : Shell unit :=
  fun s =>
    (Returned tt,
     {| environ_openai_api_key := environ_openai_api_key s;
        widget_openai_api_key := key;
        app_state := app_state s;
        screen := screen s |}).

(** A text with a NUL character in it. *)
Definition has_nul (s : string) : bool := PyStr.has_char (ascii_of_nat 0) s.

(** [os.environ["OPENAI_API_KEY"] = key]: a value with a NUL character is
    refused with [ValueError], and then nothing is written. *)
Definition set_environ (key : string) : Shell unit :=
  fun s =>
    if has_nul key then (Raised (OtherException "embedded null byte"), s)
    else
      (Returned tt,
       {| environ_openai_api_key := Some key;
          widget_openai_api_key := widget_openai_api_key s;
          app_state := app_state s;
          screen := screen s |}).

(** The item assignments on [app_state] that the code makes. *)
Definition set_agent (a : AgentExecutor) (st : AppState) : AppState :=
  {| app_logged_in := app_logged_in st;
     app_messages := app_messages st;
     app_openai_api_key := app_openai_api_key st;
     app_agent := Some a |}.

Definition set_logged_in (b : bool) (st : AppState) : AppState :=
  {| app_logged_in := b;
     app_messages := app_messages st;
     app_openai_api_key := app_openai_api_key st;
     app_agent := app_agent st |}.

Definition set_openai_api_key (key : string) (st : AppState) : AppState :=
  {| app_logged_in := app_logged_in st;
     app_messages := app_messages st;
     app_openai_api_key := key;
     app_agent := app_agent st |}.

(** [app_state['messages'].append(m)] *)
Definition append_message (m : Message) (st : AppState) : AppState :=
  {| app_logged_in := app_logged_in st;
     app_messages := app_messages st ++ [m];
     app_openai_api_key := app_openai_api_key st;
     app_agent := app_agent st |}.

(** The truth value of a string, and of what [st.chat_input] gives. *)
Definition truthy (s : string) : bool := negb (String.eqb s EmptyString).

Definition truthy_input (prompt : option string) : bool :=
  match prompt with
  | Some p => truthy p
  | None => false
  end.

(** [for x in l: body(x)] *)
Fixpoint for_each {A : Type} (l : list A) (body : A -> Shell unit) : Shell unit :=
  match l with
  | [] => shell_ret tt
  | x :: l' => body x >>> for_each l' body
  end.

Definition login_header : string :=
  PyStr.lines
    [ EmptyString;
      "    <div class=" ++ dq ++ "centered-header" ++ dq ++ ">";
      "        <h1>Dashboard Assistant</h1>";
      "    </div>";
      "    " ].

Definition chat_style : string :=
  PyStr.lines
    [ EmptyString;
      "    <style>";
      "    .stChatMessage {";
      "        width: 200% !important;";
      "        margin-left: -50% !important;";
      "        margin-right: -100% !important;";
      "    }";
      "    .stChatContainer {";
      "        display: flex !important;";
      "        flex-direction: column !important;";
      "        align-items: center !important;";
      "        max-width: 800px !important;";
      "        margin-left: auto !important;";
      "        margin-right: auto !important;";
      "    }";
      "    .stChatInputContainer {";
      "        position: fixed !important;";
      "        bottom: 0 !important;";
      "        left: 50% !important;";
      "        transform: translateX(-50%) !important;";
      "        width: 80% !important;";
      "        max-width: 800px !important;";
      "        background-color: #0E0E2C !important;";
      "        padding: 20px !important;";
      "        z-index: 1000 !important;";
      "    }";
      "    .stChatInputContainer input {";
      "        background-color: #1E1E3F !important;";
      "        color: white !important;";
      "        border: 1px solid #3E3E6F !important;";
      "        border-radius: 20px !important;";
      "        width: 100% !important;";
      "    }";
      "    .main .block-container {";
      "        padding-bottom: 100px !important;";
      "    }";
      "    </style>";
      "    " ].

Definition chat_input_open : string := "<div class=" ++ dq ++ "chat-input-container" ++ dq ++ ">".
Definition chat_input_close : string := "</div>".

(** [run_agent] as the chat page calls it, with the agent the session
    holds: on [None] the attribute [run] is missing, which raises inside the
    [try] of [run_agent]. *)
Definition run_agent_of_session (agent_run : AgentExecutor -> string -> outcome string)
    (agent : option AgentExecutor) (prompt : string) : outcome string :=
  try_except
    (result <-
       match agent with
       | Some a => agent_run a (instruction prompt)
       | None => Raised (OtherException "'NoneType' object has no attribute 'run'")
       end ;;
     Returned result)
    (fun e => Returned (error_prefix ++ exn_str e)).

Section Shell.
Context {Job : Type}.

(** [setup_agent] with its first lines: the key goes to the environment,
    which raises on a key with a NUL character; then the warehouse client is
    built from the stored credentials, which may raise as well. *)
Definition setup_agent_session (connect : outcome (BigQueryClient Job))
    (openai_api_key : string) : Shell AgentExecutor :=
  set_environ openai_api_key >>>
  bigquery_client <~ shell_lift connect ;;
  shell_ret (setup_agent bigquery_client openai_api_key).

Definition attempt_login (connect : outcome (BigQueryClient Job)) : Shell unit :=
  key <~ get_widget ;;
  if truthy key then
    show (st_spinner "Setting up the agent...") >>>
    key1 <~ get_widget ;;
    a <~ setup_agent_session connect key1 ;;
    modify_app (set_agent a) >>>
    modify_app (set_logged_in true) >>>
    key2 <~ get_widget ;;
    modify_app (set_openai_api_key key2) >>>
    show (st_success "Logged in successfully!")
  else
    show (st_error "Please enter an OpenAI API key").

(** [login_page]; [clicked] is what [st.button] returns in this run. *)
Definition login_page (connect : outcome (BigQueryClient Job)) (clicked : bool)
  : Shell unit :=
  show (st_markdown login_header) >>>
  show (st_text_input "OpenAI API Key") >>>
  show (st_button "LOGIN") >>>
  if clicked then attempt_login connect else shell_ret tt.

(** The part of [chat_page] that shows one stored message. *)
Definition show_message (m : Message) : Shell unit :=
  show (st_chat_message (role m)) >>> show (st_markdown (content m)).

(** [chat_page]; [prompt] is what [st.chat_input] returns in this run. *)
Definition chat_page (agent_run : AgentExecutor -> string -> outcome string)
    (prompt : option string) : Shell unit :=
  show (st_title "Chat with the assistant!") >>>
  show (st_markdown chat_style) >>>
  st <~ get_app ;;
  for_each (app_messages st) show_message >>>
  show (st_markdown chat_input_open) >>>
  show (st_chat_input "Ask a question about 'the_pulse' dataset") >>>
  show (st_markdown chat_input_close) >>>
  match prompt with
  | Some p =>
      if truthy p then
        modify_app (append_message {| role := "user"; content := p |}) >>>
        show (st_chat_message "user") >>>
        show (st_markdown p) >>>
        show (st_chat_message "assistant") >>>
        show st_empty >>>
        show (st_spinner "Thinking...") >>>
        shell_try
          (st' <~ get_app ;;
           full_response <~ shell_lift (run_agent_of_session agent_run (app_agent st') p) ;;
           show (placeholder_markdown full_response) >>>
           modify_app (append_message {| role := "assistant"; content := full_response |}))
          (fun e => show (st_error (error_prefix ++ exn_str e)))
      else shell_ret tt
  | None => shell_ret tt
  end.

Definition main (connect : outcome (BigQueryClient Job))
    (agent_run : AgentExecutor -> string -> outcome string)
    (clicked : bool) (prompt : option string) : Shell unit :=
  st <~ get_app ;;
  if negb (app_logged_in st) then login_page connect clicked
  else chat_page agent_run prompt.

(** What can happen to a session: the key widget changes, which calls
    [attempt_login], or the script runs [main]; each time with what the
    warehouse and the engine answer then. *)
Inductive Interaction : Type :=
| KeyEntered (key : string) (connect : outcome (BigQueryClient Job))
| ScriptRun (connect : outcome (BigQueryClient Job))
    (agent_run : AgentExecutor -> string -> outcome string)
    (clicked : bool) (prompt : option string).

Definition interact (i : Interaction) : Shell unit :=
  match i with
  | KeyEntered key connect => set_widget key >>> attempt_login connect
  | ScriptRun connect agent_run clicked prompt => main connect agent_run clicked prompt
  end.

(** A session over a series of interactions; an exception ends the
    interaction that raised it, not the session. *)
Definition run_session (trace : list Interaction) (s : Session) : Session :=
  fold_left (fun s i => snd (interact i s)) trace s.

End Shell.

(** The transcript made of whole exchanges: a question, then its answer. *)
Definition exchange_messages (qa : string * string) : list Message :=
  [ {| role := "user"; content := fst qa |};
    {| role := "assistant"; content := snd qa |} ].

Definition transcript_of (exchanges : list (string * string)) : list Message :=
  flat_map exchange_messages exchanges.

(** The page calls that show a stored transcript. *)
Definition rendered (ms : list Message) : list UiCall :=
  flat_map (fun m => [st_chat_message (role m); st_markdown (content m)]) ms.

(** The page calls every run of [chat_page] starts with, for the
    transcript it finds. *)
Definition chat_page_frame (ms : list Message) : list UiCall :=
  [st_title "Chat with the assistant!"; st_markdown chat_style]
  ++ rendered ms
  ++ [st_markdown chat_input_open;
      st_chat_input "Ask a question about 'the_pulse' dataset";
      st_markdown chat_input_close].

(** The session with some more calls on the page. *)
Definition with_screen (s : Session) (calls : list UiCall) : Session :=
  {| environ_openai_api_key := environ_openai_api_key s;
     widget_openai_api_key := widget_openai_api_key s;
     app_state := app_state s;
     screen := screen s ++ calls |}.

(** What holds of a session at any time. *)
Definition session_ok (s : Session) : Prop :=
  let st := app_state s in
  (exists exchanges, app_messages st = transcript_of exchanges) /\
  (app_logged_in st = true ->
   truthy (app_openai_api_key st) = true /\
   environ_openai_api_key s <> None /\
   exists a, app_agent st = Some a /\
             max_iterations a = 5 /\ length (agent_tools a) = 9) /\
  (app_logged_in st = false ->
   app_agent st = None /\ app_messages st = [] /\
   app_openai_api_key st = EmptyString).

(** * Properties *)

(** ** Strings *)

Lemma lower_app (a b : string) :
  PyStr.lower (a ++ b) = PyStr.lower a ++ PyStr.lower b.
Proof.
  induction a as [|c a IH]; simpl; [reflexivity | now rewrite IH].
Qed.



(** Lower-casing neither makes nor removes a space. *)
Lemma lower_char_space (c : ascii) :
  Ascii.eqb c " " = Ascii.eqb (PyStr.lower_char c) " ".
Proof.
  destruct c as [[] [] [] [] [] [] [] []]; reflexivity.
Qed.

Lemma prefix_app (x post : string) : String.prefix x (x ++ post) = true.
Proof.
  induction x as [|c x IH]; simpl.
  - destruct post; reflexivity.
  - destruct (ascii_dec c c) as [_|ne]; [exact IH | now elim ne].
Qed.

Lemma prefix_split (x s : string) :
  String.prefix x s = true -> exists post, s = x ++ post.
Proof.
  revert s; induction x as [|c x IH]; intros s H.
  - exists s; reflexivity.
  - destruct s as [|d s]; simpl in H; [discriminate|].
    destruct (ascii_dec c d) as [->|]; [|discriminate].
    destruct (IH s H) as [post ->]. exists post; reflexivity.
Qed.

(** [PyStr.contains] decides occurrence as a contiguous run. *)
Lemma contains_iff (s x : string) :
  PyStr.contains s x = true <-> exists pre post, s = pre ++ x ++ post.
Proof.
  split.
  - induction s as [|c s IH]; intros H; cbn [PyStr.contains] in H;
      apply orb_true_iff in H as [H|H].
    + destruct (prefix_split _ _ H) as [post ->].
      exists EmptyString, post; reflexivity.
    + discriminate.
    + destruct (prefix_split _ _ H) as [post E].
      exists EmptyString, post; exact E.
    + destruct (IH H) as (pre & post & ->).
      exists (String c pre), post; reflexivity.
  - intros (pre & post & ->).
    induction pre as [|c pre IH].
    + change (EmptyString ++ x ++ post) with (x ++ post).
      assert (E : forall t, PyStr.contains t x = true
                            \/ String.prefix x t = false) by
        (intros t; destruct t; cbn [PyStr.contains];
         destruct (String.prefix x _); auto).
      destruct (E (x ++ post)) as [H|H]; [exact H|].
      rewrite prefix_app in H; discriminate.
    + change (String c pre ++ x ++ post) with (String c (pre ++ x ++ post)).
      cbn [PyStr.contains]. rewrite IH. apply orb_true_r.
Qed.

(** [PyStr.repr] on the three kinds of text: no quote, a single quote
    only, and both kinds with a line break. *)
Example repr_plain : PyStr.repr "none" = "'none'".
Proof. reflexivity. Qed.

Example repr_single_quote : PyStr.repr "LPAD('0')" = dq ++ "LPAD('0')" ++ dq.
Proof. reflexivity. Qed.

Example repr_both_quotes :
  PyStr.repr ("'%m'" ++ nl ++ dq ++ "FIVE" ++ dq)
  = "'" ++ String PyStr.backslash "'%m" ++ String PyStr.backslash "'"
        ++ String PyStr.backslash "n" ++ dq ++ "FIVE" ++ dq ++ "'".
Proof. reflexivity. Qed.

(** ** Exceptions *)

Lemma try_except_returns {A : Type} (body : outcome A) (handler : exn -> A) :
  exists a, try_except body (fun e => Returned (handler e)) = Returned a.
Proof.
  destruct body as [a|e]; simpl; eauto.
Qed.

(** ** Schema Catalog *)

Module CatalogFacts.
Import DataSchemaRoadmapTool.

(** [_run] leaves the tool object as it found it. *)
Lemma run_keeps_self (self : t) (query : string) : snd (_run self query) = self.
Proof.
  unfold _run.
  destruct (String.eqb _ _); [reflexivity|].
  destruct (PyStr.startswith _ _); reflexivity.
Qed.

Lemma run_all_keeps_self (self : t) (queries : list string) :
  snd (run_all self queries) = self.
Proof.
  revert self; induction queries as [|q qs IH]; intros self; simpl; [reflexivity|].
  pose proof (run_keeps_self self q) as Hq.
  destruct (_run self q) as [r self']; simpl in Hq; subst self'.
  specialize (IH self). destruct (run_all self qs) as [rs self'']; exact IH.
Qed.

Lemma listed_tables_init : listed_tables __init__ = keys schema_map.
Proof. vm_compute. reflexivity. Qed.

Lemma keys_NoDup : NoDup (keys schema_map).
Proof.
  unfold keys, schema_map; simpl.
  repeat (constructor; [simpl; intuition discriminate|]).
  constructor.
Qed.

(** A keyword spelled in any letter case splits off at its own space. *)
Lemma split_describe (kw name : string) :
  PyStr.lower kw = "describe " ->
  exists k, PyStr.split_space_1 (kw ++ name) = [k; name].
Proof.
  intros H.
  do 9 (destruct kw as [|? kw]; [discriminate|]).
  destruct kw; [|discriminate].
  simpl in H. injection H as H1 H2 H3 H4 H5 H6 H7 H8 H9.
  simpl.
  repeat match goal with
         | Hc : PyStr.lower_char ?c = _ |- context [Ascii.eqb ?c " "] =>
             rewrite (lower_char_space c), Hc; simpl
         end.
  eexists; reflexivity.
Qed.

Lemma describe_dispatch (self : t) (kw name : string) :
  PyStr.lower kw = "describe " ->
  fst (_run self (kw ++ name)) =
  match lookup name (self_schema_map self) with
  | Some e => Returned (describe_text name e)
  | None => Returned (not_found_text name)
  end.
Proof.
  intros H. unfold _run.
  rewrite lower_app, H.
  change (String.eqb ("describe " ++ PyStr.lower name) "list tables") with false.
  unfold PyStr.startswith; rewrite prefix_app.
  destruct (split_describe kw name H) as [k ->].
  unfold list_getitem, describe_text, not_found_text; cbn [nth_error bind fst].
  destruct (lookup name (self_schema_map self)); reflexivity.
Qed.

Lemma lookup_None (k : string) (m : list (string * schema_entry)) :
  ~ In k (keys m) -> lookup k m = None.
Proof.
  induction m as [|[k' e] m IH]; simpl; intros H; [reflexivity|].
  destruct (String.eqb_spec k k') as [->|ne].
  - elim H; now left.
  - apply IH. intros Hin; apply H; now right.
Qed.

Lemma lookup_In (k : string) (m : list (string * schema_entry)) :
  In k (keys m) -> exists e, lookup k m = Some e /\ In (k, e) m.
Proof.
  induction m as [|[k' e] m IH]; simpl; intros H; [contradiction|].
  destruct (String.eqb_spec k k') as [->|ne].
  - exists e; split; [reflexivity | now left].
  - destruct H as [->|H]; [now elim ne|].
    destruct (IH H) as (e' & He & Hin). exists e'; split; [exact He | now right].
Qed.

(** Every entry of the catalog lists at least one field. *)
Lemma entries_have_fields (k : string) (e : schema_entry) :
  In (k, e) schema_map -> fields e <> [].
Proof.
  unfold schema_map; simpl.
  intros H; repeat (destruct H as [H|H]; [injection H as _ <-; discriminate|]).
  contradiction.
Qed.

(** No two keys of the catalog differ in letter case only. *)
Lemma keys_distinct_ignoring_case (k k' : string) :
  In k (keys schema_map) -> In k' (keys schema_map) ->
  PyStr.lower k = PyStr.lower k' -> k = k'.
Proof.
  unfold keys, schema_map; simpl.
  intros H H' E.
  repeat (destruct H as [<-|H]);
    repeat (destruct H' as [<-|H']);
    try contradiction; try reflexivity; vm_compute in E; discriminate.
Qed.

End CatalogFacts.

Section CatalogClaims.
Import DataSchemaRoadmapTool CatalogFacts.

Lemma lookup_unique (k : string) (e : schema_entry) (m : list (string * schema_entry)) :
  NoDup (keys m) -> In (k, e) m -> lookup k m = Some e.
Proof.
  induction m as [|[k' e'] m IH]; simpl; intros ND H; [contradiction|].
  inversion ND as [|? ? Hnotin ND']; subst.
  destruct H as [H|H].
  - injection H as -> ->. now rewrite String.eqb_refl.
  - destruct (String.eqb_spec k k') as [->|ne]; [|now apply IH].
    elim Hnotin. change (In k' (map fst m)).
    apply (in_map fst) in H; exact H.
Qed.

(** C7. Every table identifier that the answer to "list tables" holds is
    described by "describe <identifier>" with the table's description and
    field list, not by the not-found message, and the field list is not
    empty; the identifiers are pairwise different, and they come in the same
    order whatever calls were made on the tool before. *)
Theorem listed_tables_are_described :
  let self := __init__ in
  NoDup (listed_tables self) /\
  (forall queries : list string,
     listed_tables (snd (run_all self queries)) = listed_tables self) /\
  (forall table : string,
     In table (listed_tables self) ->
     exists e : schema_entry,
       In (table, e) schema_map /\
       fst (_run self ("describe " ++ table)) = Returned (describe_text table e) /\
       describe_text table e <> not_found_text table /\
       fields e <> []).
Proof.
  cbv zeta. rewrite listed_tables_init. split; [exact keys_NoDup|]. split.
  - intros queries. rewrite run_all_keeps_self. exact listed_tables_init.
  - intros table Hin.
    destruct (lookup_In table schema_map Hin) as (e & Hlk & He).
    exists e. split; [exact He|]. split; [|split].
    + rewrite (describe_dispatch __init__ "describe " table eq_refl).
      change (self_schema_map __init__) with schema_map. now rewrite Hlk.
    + unfold describe_text, not_found_text. simpl. discriminate.
    + exact (entries_have_fields table e He).
Qed.

Lemma listed_tables_are_described_witness :
  exists e : schema_entry,
    In ("the_pulse.calls_forLS", e) schema_map /\
    fst (_run __init__ "describe the_pulse.calls_forLS")
    = Returned (describe_text "the_pulse.calls_forLS" e) /\
    describe_text "the_pulse.calls_forLS" e <> not_found_text "the_pulse.calls_forLS" /\
    fields e <> [].
Proof.
  apply (proj2 (proj2 listed_tables_are_described) "the_pulse.calls_forLS").
  vm_compute. tauto.
Defined.

(** C9. Describing a table is idempotent and deterministic: a call of
    [_run] leaves the catalog as it was, so the same "describe ..." input
    gives the same output when repeated, and after any other calls. *)
Theorem describe_is_idempotent (self : t) (query : string) :
  snd (_run self query) = self /\
  fst (_run (snd (_run self query)) query) = fst (_run self query) /\
  (forall queries : list string,
     fst (_run (snd (run_all self queries)) query) = fst (_run self query)).
Proof.
  split; [apply run_keeps_self|]. split.
  - now rewrite run_keeps_self.
  - intros queries. now rewrite run_all_keeps_self.
Qed.

(** C10. The command keyword is matched in any letter case, the table
    name only in its exact spelling: with "describe " spelled in any case,
    the input is answered with the description when the rest is a key of the
    schema map, and with the not-found message when the rest differs from a
    key in letter case only. *)
Theorem describe_keyword_any_case_name_exact (kw name : string) :
  PyStr.lower kw = "describe " ->
  (forall e : schema_entry,
     In (name, e) schema_map ->
     fst (_run __init__ (kw ++ name)) = Returned (describe_text name e)) /\
  (forall key : string,
     In key (keys schema_map) ->
     PyStr.lower name = PyStr.lower key -> name <> key ->
     fst (_run __init__ (kw ++ name)) = Returned (not_found_text name)).
Proof.
  intros Hkw. rewrite (describe_dispatch __init__ kw name Hkw).
  change (self_schema_map __init__) with schema_map. split.
  - intros e He. now rewrite (lookup_unique name e schema_map keys_NoDup He).
  - intros key Hkey Hcase Hne.
    rewrite lookup_None; [reflexivity|].
    intros Hin. apply Hne.
    exact (keys_distinct_ignoring_case name key Hin Hkey Hcase).
Qed.

Lemma describe_keyword_any_case_name_exact_witness :
  (exists e : schema_entry,
     fst (_run __init__ "DESCRIBE the_pulse.reviews_forLS")
     = Returned (describe_text "the_pulse.reviews_forLS" e)) /\
  fst (_run __init__ "describe the_pulse.reviews_forls")
  = Returned (not_found_text "the_pulse.reviews_forls").
Proof.
  split.
  - eexists.
    apply (proj1 (describe_keyword_any_case_name_exact
                    "DESCRIBE " "the_pulse.reviews_forLS" eq_refl)).
    left; reflexivity.
  - apply (proj2 (describe_keyword_any_case_name_exact
                    "describe " "the_pulse.reviews_forls" eq_refl)
             "the_pulse.reviews_forLS").
    + left; reflexivity.
    + reflexivity.
    + discriminate.
Defined.

End CatalogClaims.

(** ** Table Contract Providers *)


Lemma dict_getitem_contains (d : pydict) (k : string) :
  dict_contains d k = true -> exists v, dict_getitem d k = Returned v.
Proof.
  induction d as [|[k' v] d IH]; simpl; [discriminate|].
  destruct (String.eqb k k'); simpl; eauto.
Qed.

Lemma in_list_In (query : string) (l : list string) :
  in_list query l = true <-> In query l.
Proof.
  unfold in_list. rewrite existsb_exists. split.
  - intros (x & Hx & E). apply String.eqb_eq in E. now subst.
  - intros H. exists query. split; [exact H | apply String.eqb_refl].
Qed.

(** Each [_run] computes [answer] on the lower-cased topic. *)
Lemma provider_run_answer (p : Provider) (q : string) :
  provider_run p q = answer p (PyStr.lower q).
Proof.
  destruct p; cbv beta iota delta
    [provider_run answer provider_table_info provider_fields
     handled_attributes attribute_label
     CallsForLSTool._run OpportunitiesForLSTool._run AdExpenseDataForLSTool._run
     ReviewsForLSTool._run AdExpenseDataMonthlyForLSTool._run
     OpportunitiesMonthlyForLSTool._run CallsMonthlyForLSTool._run];
  generalize (PyStr.lower q); intros query; cbv zeta;
  (destruct (String.eqb query "structure"); [reflexivity|]);
  match goal with
  | |- context [dict_getitem ?ti "fields"] =>
      match goal with
      | |- context [dict_contains ?fs query] =>
          change (dict_getitem ti "fields") with (Returned (VDict fs))
      end
  end;
  cbn [bind contains_key getitem];
  match goal with
  | |- context [dict_contains ?fs query] => destruct (dict_contains fs query)
  end; try reflexivity;
  unfold in_list, attrs4, attrs5; cbn [existsb app];
  repeat match goal with
         | |- context [String.eqb query ?k] =>
             destruct (String.eqb_spec query k) as [->|?]
         end;
  reflexivity.
Qed.

Lemma handled_in_table_info (p : Provider) (k : string) :
  In k (handled_attributes p) -> dict_contains (provider_table_info p) k = true.
Proof.
  destruct p; simpl; intros H;
    repeat (destruct H as [<-|H]; [reflexivity|]); contradiction.
Qed.


(** No provider's query operation raises, whatever the topic. *)
Lemma provider_run_total (p : Provider) (q : string) :
  exists s, provider_run p q = Returned s.
Proof.
  rewrite provider_run_answer. unfold answer.
  destruct (String.eqb _ "structure"); [eauto|].
  destruct (dict_contains (provider_fields p) _) eqn:Hf.
  - destruct (dict_getitem_contains _ _ Hf) as [v ->]. simpl; eauto.
  - destruct (in_list _ (handled_attributes p)) eqn:Ha; [|eauto].
    apply in_list_In, handled_in_table_info in Ha.
    destruct (dict_getitem_contains _ _ Ha) as [v ->]. simpl; eauto.
Qed.


(** A field whose name has no upper-case letter is found, however the
    topic is cased. *)
Lemma lowercase_field_found (p : Provider) (f : string) (v : pyval) (topic : string) :
  In (f, v) (provider_fields p) -> PyStr.lower f = f ->
  same_ignoring_case topic f ->
  provider_run p topic = Returned (field_answer f v).
Proof.
  unfold same_ignoring_case. intros Hin Hlow Hcase.
  rewrite provider_run_answer, Hcase, Hlow. clear Hcase topic.
  destruct p; simpl in Hin;
    repeat (destruct Hin as [Hin|Hin];
            [injection Hin as <- <-;
             first [discriminate Hlow | reflexivity]|]);
    contradiction.
Qed.


(** C1. The field names [Total_Calls] of the calls provider and [Leads]
    of the opportunities provider are keys of the [fields] mapping, yet
    [_run] answers them, in the stored casing as in lower case, with the
    "No information found" text and not with the field's provenance: the
    topic is lower-cased before it is looked up among keys that are not. *)
Theorem mixed_case_field_gets_no_information :
  In "Total_Calls" (dict_keys CallsForLSTool.fields) /\
  CallsForLSTool._run "Total_Calls" = Returned (no_information "total_calls") /\
  CallsForLSTool._run "total_calls" = Returned (no_information "total_calls") /\
  In "Leads" (dict_keys OpportunitiesForLSTool.fields) /\
  OpportunitiesForLSTool._run "Leads" = Returned (no_information "leads") /\
  OpportunitiesForLSTool._run "leads" = Returned (no_information "leads").
Proof.
  repeat split; try reflexivity; simpl; tauto.
Qed.


(** Scenario B: the reviews provider has no time periods and says so
    without raising. *)
Lemma reviews_time_periods :
  dict_contains ReviewsForLSTool.table_info "time_periods" = false /\
  ReviewsForLSTool._run "time_periods" = Returned (no_information "time_periods").
Proof. split; reflexivity. Qed.

(** C2. The ad-expense provider's table has a clustering attribute and
    the reviews provider's table a full query and a source table, yet
    [_run] answers these keywords with the "No information found" text: the
    two classes have no branch for the attribute keywords that the other
    providers answer. *)
Theorem stored_attribute_gets_no_information :
  dict_getitem AdExpenseDataForLSTool.table_info "clustering"
  = Returned (VStr "CLUSTER BY ghl_location_id") /\
  AdExpenseDataForLSTool._run "clustering" = Returned (no_information "clustering") /\
  dict_getitem ReviewsForLSTool.table_info "full_query"
  = Returned (VStr ReviewsForLSTool.full_query) /\
  ReviewsForLSTool._run "full_query" = Returned (no_information "full_query") /\
  dict_getitem OpportunitiesMonthlyForLSTool.table_info "source_table"
  = Returned (VStr "the-pulse-405018.the_pulse.opportunities_forLS") /\
  OpportunitiesMonthlyForLSTool._run "source_table"
  = Returned (no_information "source_table").
Proof.
  repeat split; reflexivity.
Qed.

(** The answer to "structure" is the [repr] of the whole [table_info]. *)
Lemma structure_answer (p : Provider) :
  provider_run p "structure" = Returned (py_repr (VDict (provider_table_info p))).
Proof. destruct p; reflexivity. Qed.

(** The canonical query of the calls provider as such is no part of the
    answer to "structure": the text has line breaks, the answer has none. *)
Lemma structure_lacks_raw_query :
  exists s, provider_run Calls "structure" = Returned s /\
            PyStr.contains s (provider_full_query Calls) = false.
Proof.
  eexists. split; [apply structure_answer|]. vm_compute. reflexivity.
Qed.

(** C5, as the code has it. For every provider the answer to "structure"
    holds the canonical query in the form [repr] gives it, after its key:
    the text between quotes, each line break written as backslash and n,
    and each quote character of the quoting kind behind a backslash. *)
Theorem structure_holds_repr_of_query (p : Provider) :
  exists pre post : string,
    provider_run p "structure"
    = Returned (pre ++ ("'full_query': " ++ PyStr.repr (provider_full_query p)) ++ post).
Proof.
  rewrite structure_answer.
  assert (H : PyStr.contains (py_repr (VDict (provider_table_info p)))
                ("'full_query': " ++ PyStr.repr (provider_full_query p)) = true)
    by (destruct p; vm_compute; reflexivity).
  apply contains_iff in H. destruct H as (pre & post & ->). eauto.
Qed.



(** ** Query Executor *)

Section ExecutorClaims.
Context {Job : Type} (client : BigQueryClient Job).

Lemma execute_bigquery_unfold (query : string) :
  execute_bigquery client query =
  match warehouse_call client query with
  | Returned rows => Returned (serialize_rows rows)
  | Raised e => Returned (error_prefix ++ exn_str e)
  end.
Proof.
  unfold execute_bigquery, warehouse_call.
  destruct (client_query client query) as [job|e]; cbn [bind try_except];
    [|reflexivity].
  destruct (job_result client job) as [rows|e]; cbn [bind try_except];
    [|reflexivity].
  unfold serialize_rows, row_entries. cbn [py_str py_repr].
  now rewrite map_map.
Qed.

(** C3. [execute_bigquery] returns a string for every query text: when
    the warehouse call raises, the fixed prefix followed by the message of
    the exception; when it gives rows, the serialization of the row
    dictionaries, one entry per row, in the order of the rows. *)
Theorem execute_bigquery_never_raises (query : string) :
  (exists s, execute_bigquery client query = Returned s) /\
  (forall e, warehouse_call client query = Raised e ->
             execute_bigquery client query = Returned (error_prefix ++ exn_str e)) /\
  (forall rows, warehouse_call client query = Returned rows ->
                execute_bigquery client query = Returned (serialize_rows rows) /\
                serialize_rows rows
                = "[" ++ PyStr.join ", " (map (fun row => py_repr (VDict row)) rows) ++ "]" /\
                length (row_entries rows) = length rows).
Proof.
  rewrite execute_bigquery_unfold. split; [|split].
  - destruct (warehouse_call client query); eauto.
  - intros e ->. reflexivity.
  - intros rows ->. split; [reflexivity|]. split; [reflexivity|].
    unfold row_entries. apply length_map.
Qed.

End ExecutorClaims.

Lemma execute_bigquery_never_raises_witness :
  execute_bigquery scenario_client "SELECT 1" = Returned "[{'f0_': 1}]" /\
  execute_bigquery scenario_client "SELEC 1"
  = Returned "An error occurred: 400 Syntax error: Unexpected identifier SELEC 1".
Proof.
  split.
  - apply (proj1 (proj2 (proj2 (execute_bigquery_never_raises scenario_client "SELECT 1"))
                    [[("f0_", VInt 1)]] eq_refl)).
  - apply (proj1 (proj2 (execute_bigquery_never_raises scenario_client "SELEC 1"))
             (OtherException "400 Syntax error: Unexpected identifier SELEC 1") eq_refl).
Defined.

(** ** Agent Controller *)

(** C4. [run_agent] returns a string for every prompt and every engine:
    the engine's answer when it gives one, and when running the question
    raises, the text "An error occurred: " followed by the message. *)
Theorem run_agent_never_raises
    (agent_run : AgentExecutor -> string -> outcome string)
    (agent : AgentExecutor) (prompt : string) :
  (exists s, run_agent agent_run agent prompt = Returned s) /\
  (forall e, agent_run agent (instruction prompt) = Raised e ->
             run_agent agent_run agent prompt = Returned (error_prefix ++ exn_str e)) /\
  (forall answer, agent_run agent (instruction prompt) = Returned answer ->
                  run_agent agent_run agent prompt = Returned answer).
Proof.
  unfold run_agent. split; [|split].
  - destruct (agent_run agent (instruction prompt)); simpl; eauto.
  - intros e ->. reflexivity.
  - intros answer ->. reflexivity.
Qed.

Lemma run_agent_never_raises_witness :
  run_agent unreachable_engine (setup_agent scenario_client "sk-test") EmptyString
  = Returned "An error occurred: Connection error." /\
  run_agent unreachable_engine (setup_agent scenario_client "sk-test") "```sql SELECT `x`"
  = Returned "An error occurred: Connection error.".
Proof.
  split.
  - apply (proj1 (proj2 (run_agent_never_raises unreachable_engine
                           (setup_agent scenario_client "sk-test") EmptyString))
             (OtherException "Connection error.") eq_refl).
  - apply (proj1 (proj2 (run_agent_never_raises unreachable_engine
                           (setup_agent scenario_client "sk-test") "```sql SELECT `x`"))
             (OtherException "Connection error.") eq_refl).
Defined.

(** ** Tool Registry *)

Lemma all_providers_complete (p : Provider) : In p all_providers.
Proof. destruct p; simpl; tauto. Qed.

Lemma all_providers_NoDup : NoDup all_providers.
Proof.
  unfold all_providers.
  repeat (constructor; [simpl; intuition discriminate|]). constructor.
Qed.

(** C8. [setup_agent] builds the model client with temperature 0 and the
    agent with at most 5 iterations, over nine tools: the query executor,
    which runs [execute_bigquery] on the warehouse client; the schema
    catalog, which runs [_run] of a fresh [DataSchemaRoadmapTool]; and for
    each provider class exactly one tool, which carries the class's name
    and runs its [_run]. *)
Theorem setup_agent_configuration {Job : Type} (client : BigQueryClient Job)
    (openai_api_key : string) :
  let agent := setup_agent client openai_api_key in
  temperature (agent_llm agent) = 0%Z /\
  max_iterations agent = 5 /\
  length (agent_tools agent) = 9 /\
  map tool_name (agent_tools agent)
  = "BigQuery" :: "Data Schema Roadmap" :: map provider_name all_providers /\
  map tool_func (firstn 1 (agent_tools agent)) = [execute_bigquery client] /\
  map tool_func (firstn 1 (skipn 1 (agent_tools agent)))
  = [fun q => fst (DataSchemaRoadmapTool._run DataSchemaRoadmapTool.__init__ q)] /\
  map tool_func (agent_tools agent)
  = execute_bigquery client
    :: (fun q => fst (DataSchemaRoadmapTool._run DataSchemaRoadmapTool.__init__ q))
    :: map provider_run all_providers /\
  map tool_func (skipn 2 (agent_tools agent)) = map provider_run all_providers /\
  NoDup (map tool_name (agent_tools agent)) /\
  NoDup all_providers /\
  (forall p : Provider, In p all_providers).
Proof.
  cbv zeta. repeat split; try reflexivity.
  - simpl. repeat (constructor; [simpl; intuition discriminate|]). constructor.
  - exact all_providers_NoDup.
  - exact all_providers_complete.
Qed.

(** * Further properties *)

(** ** Strings *)

Lemma string_length_app (a b : string) :
  String.length (a ++ b) = String.length a + String.length b.
Proof.
  induction a as [|c a IH]; simpl; [reflexivity | now rewrite IH].
Qed.

Lemma string_app_nil_r (s : string) : s ++ EmptyString = s.
Proof.
  induction s as [|c s IH]; simpl; [reflexivity | now rewrite IH].
Qed.

Lemma string_app_inv_head (x a b : string) : x ++ a = x ++ b -> a = b.
Proof.
  induction x as [|c x IH]; simpl; intros H; [exact H|].
  injection H as H. exact (IH H).
Qed.

Lemma string_app_inv_tail (t a b : string) : a ++ t = b ++ t -> a = b.
Proof.
  revert b; induction a as [|c a IH]; intros [|d b] H; simpl in H.
  - reflexivity.
  - apply (f_equal String.length) in H. simpl in H.
    rewrite string_length_app in H. lia.
  - apply (f_equal String.length) in H. simpl in H.
    rewrite string_length_app in H. lia.
  - injection H as -> H. now rewrite (IH b H).
Qed.

(** A lower-cased text that splits comes from a text that splits there. *)
Lemma lower_app_inv (q a b : string) :
  PyStr.lower q = a ++ b ->
  exists qa qb, q = qa ++ qb /\ PyStr.lower qa = a /\ PyStr.lower qb = b.
Proof.
  revert q; induction a as [|c a IH]; intros q H.
  - exists EmptyString, q. auto.
  - destruct q as [|d q]; simpl in H; [discriminate|].
    injection H as Hc H. destruct (IH q H) as (qa & qb & -> & Ha & Hb).
    exists (String d qa), qb. simpl. now rewrite Hc, Ha.
Qed.

Lemma split_newline_nonempty (s : string) : PyStr.split_newline s <> [].
Proof.
  destruct s as [|c s]; simpl; [discriminate|].
  destruct (Ascii.eqb c _); [discriminate|].
  destruct (PyStr.split_newline s); discriminate.
Qed.

(** [split("\n")] undoes ["\n".join] on texts without a line break. *)
Lemma split_newline_app (k s : string) :
  PyStr.has_char (ascii_of_nat 10) k = false ->
  PyStr.split_newline (k ++ s) =
  match PyStr.split_newline s with
  | [] => [k]
  | h :: t => (k ++ h) :: t
  end.
Proof.
  induction k as [|c k IH]; intros H.
  - change (EmptyString ++ s) with s.
    pose proof (split_newline_nonempty s) as Hs.
    destruct (PyStr.split_newline s); [now elim Hs | reflexivity].
  - cbn [PyStr.has_char] in H. apply orb_false_iff in H as [Hc Hk].
    change (String c k ++ s) with (String c (k ++ s)).
    cbn [PyStr.split_newline].
    rewrite Ascii.eqb_sym, Hc, (IH Hk).
    destruct (PyStr.split_newline s); reflexivity.
Qed.

Lemma split_newline_join (l : list string) :
  l <> [] ->
  (forall k, In k l -> PyStr.has_char (ascii_of_nat 10) k = false) ->
  PyStr.split_newline (PyStr.join nl l) = l.
Proof.
  induction l as [|k l IH]; intros Hne Hl; [now elim Hne|].
  destruct l as [|k' l].
  - change (PyStr.join nl [k]) with k.
    replace (PyStr.split_newline k) with (PyStr.split_newline (k ++ EmptyString))
      by now rewrite string_app_nil_r.
    rewrite split_newline_app by (apply Hl; now left).
    simpl. now rewrite string_app_nil_r.
  - change (PyStr.join nl (k :: k' :: l))
      with (k ++ String (ascii_of_nat 10) (PyStr.join nl (k' :: l))).
    rewrite split_newline_app by (apply Hl; now left).
    change (PyStr.split_newline (String (ascii_of_nat 10) (PyStr.join nl (k' :: l))))
      with (EmptyString :: PyStr.split_newline (PyStr.join nl (k' :: l))).
    rewrite IH; [|discriminate|intros x Hx; apply Hl; now right].
    now rewrite string_app_nil_r.
Qed.

(** ** Table Contract Providers *)

(** X2. The answer of a provider depends on the topic up to letter case
    only. *)
Theorem provider_topic_case_insensitive (p : Provider) (topic topic' : string) :
  same_ignoring_case topic topic' ->
  provider_run p topic = provider_run p topic'.
Proof.
  unfold same_ignoring_case. intros H.
  now rewrite !provider_run_answer, H.
Qed.

Lemma provider_topic_case_insensitive_witness :
  provider_run Calls "Clustering" = provider_run Calls "CLUSTERING".
Proof.
  apply (provider_topic_case_insensitive Calls "Clustering" "CLUSTERING").
  reflexivity.
Defined.

(** X1. No provider's query operation raises, whatever the topic: each
    stored attribute a [_run] looks up by the topic is a key of its
    [table_info]. *)
Theorem provider_never_raises (p : Provider) (topic : string) :
  exists s, provider_run p topic = Returned s.
Proof. exact (provider_run_total p topic). Qed.

(** X3. A field whose stored name has no upper-case letter is answered
    with its provenance, in the form "Field '<name>': <provenance>", under
    every letter case of the topic. *)
Theorem lowercase_field_is_answered (p : Provider) (f : string) (v : pyval)
    (topic : string) :
  In (f, v) (provider_fields p) -> PyStr.lower f = f ->
  same_ignoring_case topic f ->
  provider_run p topic = Returned ("Field '" ++ f ++ "': " ++ py_str v).
Proof. exact (lowercase_field_found p f v topic). Qed.

Lemma lowercase_field_is_answered_witness :
  provider_run Reviews "Rating"
  = Returned
      ("Field '" ++ "rating" ++ "': "
       ++ py_str (VStr "Directly selected from the source table using: SELECT rating")).
Proof.
  apply (lowercase_field_is_answered Reviews "rating" _ "Rating").
  - simpl. tauto.
  - reflexivity.
  - reflexivity.
Defined.





(** X6. The answer to "structure" is one line of text for every provider:
    [repr] writes each line break of the stored texts as an escape. *)
Theorem structure_answer_is_one_line (p : Provider) :
  exists s,
    provider_run p "structure" = Returned s /\
    PyStr.has_char (ascii_of_nat 10) s = false /\
    PyStr.has_char (ascii_of_nat 10) (provider_full_query p) = true.
Proof.
  eexists. split; [apply structure_answer|].
  destruct p; split; vm_compute; reflexivity.
Qed.

(** ** Tool registry and catalog, side by side *)

(** X7. Every provider is named for a table of the catalog: the "name"
    entry of its [table_info], behind the dataset prefix, is a key of the
    schema map; the [name] attribute of the class (Calls_ForLS and the
    like, the name its tool is registered under) is that table name up to
    letter case; every field the provider documents is a field of the
    catalog entry; and the canonical query is the statement that creates
    that table. *)
Theorem provider_matches_catalog (p : Provider) :
  exists (table : string) (e : schema_entry),
    dict_getitem (provider_table_info p) "name" = Returned (VStr table) /\
    same_ignoring_case (provider_name p) table /\
    DataSchemaRoadmapTool.lookup ("the_pulse." ++ table) DataSchemaRoadmapTool.schema_map
    = Some e /\
    (forall f, In f (dict_keys (provider_fields p)) -> In f (fields e)) /\
    PyStr.contains (provider_full_query p)
      ("CREATE OR REPLACE TABLE `the-pulse-405018.the_pulse." ++ table ++ "`") = true.
Proof.
  destruct p; do 2 eexists;
    (split; [reflexivity|]); (split; [reflexivity|]); (split; [reflexivity|]);
    (split; [|vm_compute; reflexivity]);
    intros f Hf; simpl in Hf;
    repeat (destruct Hf as [<-|Hf]; [simpl; tauto|]); contradiction.
Qed.

(** X8. Every table of the catalog has exactly one provider. *)
Theorem catalog_table_has_one_provider (key : string) :
  In key (DataSchemaRoadmapTool.keys DataSchemaRoadmapTool.schema_map) ->
  exists p : Provider,
    (exists table, dict_getitem (provider_table_info p) "name" = Returned (VStr table) /\
                   key = "the_pulse." ++ table) /\
    (forall p' table',
       dict_getitem (provider_table_info p') "name" = Returned (VStr table') ->
       key = "the_pulse." ++ table' -> p' = p).
Proof.
  simpl. intros H.
  repeat (destruct H as [<-|H];
          [ first
              [ exists Reviews; split; [eexists; split; reflexivity|]
              | exists OpportunitiesMonthly; split; [eexists; split; reflexivity|]
              | exists CallsMonthly; split; [eexists; split; reflexivity|]
              | exists Calls; split; [eexists; split; reflexivity|]
              | exists AdExpenseDataMonthly; split; [eexists; split; reflexivity|]
              | exists AdExpenseData; split; [eexists; split; reflexivity|]
              | exists Opportunities; split; [eexists; split; reflexivity|] ];
            intros p' table' Hn Hk; destruct p';
            simpl in Hn; injection Hn as <-; first [reflexivity | discriminate Hk] |]).
  contradiction.
Qed.

Lemma catalog_table_has_one_provider_witness :
  exists p : Provider,
    (exists table, dict_getitem (provider_table_info p) "name" = Returned (VStr table) /\
                   "the_pulse.calls_forLS" = "the_pulse." ++ table) /\
    (forall p' table',
       dict_getitem (provider_table_info p') "name" = Returned (VStr table') ->
       "the_pulse.calls_forLS" = "the_pulse." ++ table' -> p' = p).
Proof.
  apply (catalog_table_has_one_provider "the_pulse.calls_forLS").
  simpl. tauto.
Defined.

(** ** Schema Catalog, for any content of the schema map *)

Section AnyCatalog.
Import DataSchemaRoadmapTool CatalogFacts.

(** X9. [_run] raises on no input: where it takes the second part of the
    split, the text starts with "describe " and so has a space to split at. *)
Theorem catalog_run_never_raises (self : t) (query : string) :
  exists s, fst (_run self query) = Returned s.
Proof.
  unfold _run.
  destruct (String.eqb (PyStr.lower query) "list tables"); [simpl; eauto|].
  destruct (PyStr.startswith (PyStr.lower query) "describe ") eqn:Hd; [|simpl; eauto].
  unfold PyStr.startswith in Hd.
  destruct (prefix_split _ _ Hd) as [post Hpost].
  destruct (lower_app_inv _ _ _ Hpost) as (kw & name & -> & Hkw & _).
  destruct (split_describe kw name Hkw) as [k ->].
  unfold list_getitem; cbn [nth_error bind fst].
  destruct (lookup name (self_schema_map self)); eauto.
Qed.

(** X10. Whatever the schema map holds, "describe" in any letter case followed
    by a key gives that key's description, and followed by anything else,
    the empty text included, gives the not-found message with that text;
    the name is all that follows the first space, further spaces included. *)
Theorem describe_on_any_catalog (self : t) (kw name : string) :
  PyStr.lower kw = "describe " ->
  (forall e, lookup name (self_schema_map self) = Some e ->
             fst (_run self (kw ++ name)) = Returned (describe_text name e)) /\
  (In name (keys (self_schema_map self)) ->
   exists e, In (name, e) (self_schema_map self) /\
             fst (_run self (kw ++ name)) = Returned (describe_text name e)) /\
  (~ In name (keys (self_schema_map self)) ->
   fst (_run self (kw ++ name)) = Returned (not_found_text name)).
Proof.
  intros Hkw. rewrite (describe_dispatch self kw name Hkw). split; [|split].
  - intros e ->. reflexivity.
  - intros Hin. destruct (lookup_In name _ Hin) as (e & -> & He). eauto.
  - intros Hnot. now rewrite (lookup_None name _ Hnot).
Qed.

Lemma describe_on_any_catalog_witness :
  let e := {| description := "d"; fields := ["a"; "b"] |} in
  let self := {| self_schema_map := [("my table", e)] |} in
  fst (_run self ("Describe " ++ "my table")) = Returned (describe_text "my table" e) /\
  fst (_run self ("describe " ++ EmptyString)) = Returned (not_found_text EmptyString).
Proof.
  cbv zeta. split.
  - exact (proj1 (describe_on_any_catalog
                    {| self_schema_map :=
                         [("my table", {| description := "d"; fields := ["a"; "b"] |})] |}
                    "Describe " "my table" eq_refl) _ eq_refl).
  - apply (proj2 (proj2 (describe_on_any_catalog
                    {| self_schema_map :=
                         [("my table", {| description := "d"; fields := ["a"; "b"] |})] |}
                    "describe " EmptyString eq_refl))).
    simpl. intros [H|[]]. discriminate.
Defined.

(** X11. Splitting the answer to "list tables" at the line breaks gives back
    the keys of the schema map, in their order, for every map that has a key
    and no line break inside a key; the command is read in any letter case. *)
Theorem list_tables_round_trip (self : t) (command : string) :
  PyStr.lower command = "list tables" ->
  keys (self_schema_map self) <> [] ->
  (forall k, In k (keys (self_schema_map self)) ->
             PyStr.has_char (ascii_of_nat 10) k = false) ->
  exists s, fst (_run self command) = Returned s /\
            PyStr.split_newline s = keys (self_schema_map self).
Proof.
  intros Hc Hne Hk. unfold _run. rewrite Hc.
  change (String.eqb "list tables" "list tables") with true. cbn [fst].
  eexists. split; [reflexivity|].
  now apply split_newline_join.
Qed.

Lemma list_tables_round_trip_witness :
  exists s, fst (_run __init__ "List Tables") = Returned s /\
            PyStr.split_newline s = keys (self_schema_map __init__).
Proof.
  apply (list_tables_round_trip __init__ "List Tables").
  - reflexivity.
  - discriminate.
  - intros k Hk. simpl in Hk.
    repeat (destruct Hk as [<-|Hk]; [reflexivity|]). contradiction.
Defined.

End AnyCatalog.

(** ** Query Executor *)

Lemma serialize_rows_cons (r : pydict) (rows : list pydict) :
  exists rest, serialize_rows (r :: rows) = String "[" (String "{" rest).
Proof.
  assert (exists y, py_repr (VDict r) = String "{" y) as [y Hy]
    by (cbn [py_repr]; eexists; reflexivity).
  unfold serialize_rows, row_entries, PyStr.join. cbn [map String.concat].
  rewrite Hy.
  match goal with
  | |- context [match ?m with [] => _ | _ :: _ => _ end] => destruct m
  end; cbn [append]; eexists; reflexivity.
Qed.

(** X12. The answer of the executor tells success from failure by its first
    character: it starts with an opening bracket exactly when the warehouse
    gave rows, and with the error prefix exactly when the call raised; no
    row at all gives the text of the empty list. *)
Theorem execute_bigquery_outcome_is_readable {Job : Type}
    (client : BigQueryClient Job) (query : string) :
  exists s,
    execute_bigquery client query = Returned s /\
    ((exists rows, warehouse_call client query = Returned rows)
     <-> String.prefix "[" s = true) /\
    ((exists e, warehouse_call client query = Raised e)
     <-> String.prefix error_prefix s = true) /\
    (warehouse_call client query = Returned [] <-> s = "[]").
Proof.
  rewrite execute_bigquery_unfold.
  destruct (warehouse_call client query) as [rows|e]; eexists;
    (split; [reflexivity|]).
  - split; [|split].
    + split; [intros _; apply (prefix_app "[") | eauto].
    + split; [intros [e H]; discriminate | intros H; vm_compute in H; discriminate].
    + split.
      * intros H; injection H as ->. reflexivity.
      * destruct rows as [|r rows]; [reflexivity|].
        destruct (serialize_rows_cons r rows) as [rest ->]. discriminate.
  - split; [|split].
    + split; [intros [rows H]; discriminate | intros H; vm_compute in H; discriminate].
    + split; [intros _; unfold error_prefix; apply prefix_app | eauto].
    + split; [discriminate | intros H; simpl in H; discriminate].
Qed.

(** ** Agent Controller *)

(** X13. [run_agent] hands the engine the question as it was asked: the
    text the engine receives holds the question unchanged, and for two
    different questions the engine receives two different texts. *)
Theorem run_agent_hands_over_the_question (agent : AgentExecutor)
    (prompt prompt' : string) :
  prompt <> prompt' ->
  (exists text, run_agent echo_engine agent prompt = Returned text /\
                PyStr.contains text prompt = true) /\
  run_agent echo_engine agent prompt <> run_agent echo_engine agent prompt'.
Proof.
  intros Hne. split.
  - exists (instruction prompt). split; [reflexivity|].
    apply contains_iff. exists instruction_head, instruction_tail. reflexivity.
  - intros H. apply Hne.
    assert (E : instruction prompt = instruction prompt')
      by (unfold run_agent, echo_engine in H; cbn [bind try_except] in H;
          congruence).
    unfold instruction in E.
    apply string_app_inv_head in E.
    now apply string_app_inv_tail in E.
Qed.

Lemma run_agent_hands_over_the_question_witness :
  (exists text,
     run_agent echo_engine (setup_agent scenario_client "sk-test") "How many leads?"
     = Returned text /\
     PyStr.contains text "How many leads?" = true) /\
  run_agent echo_engine (setup_agent scenario_client "sk-test") "How many leads?"
  <> run_agent echo_engine (setup_agent scenario_client "sk-test") "How many calls?".
Proof.
  apply (run_agent_hands_over_the_question
           (setup_agent scenario_client "sk-test")
           "How many leads?" "How many calls?").
  discriminate.
Defined.

(** ** Presentation shell *)

Lemma with_screen_nil (s : Session) : with_screen s [] = s.
Proof.
  destruct s; unfold with_screen; simpl. now rewrite app_nil_r.
Qed.

Lemma with_screen_app (s : Session) (a b : list UiCall) :
  with_screen (with_screen s a) b = with_screen s (a ++ b).
Proof.
  unfold with_screen; simpl. now rewrite app_assoc.
Qed.

Lemma show_eq (c : UiCall) (s : Session) : show c s = (Returned tt, with_screen s [c]).
Proof. reflexivity. Qed.

Lemma for_each_show_message (ms : list Message) (s : Session) :
  for_each ms show_message s = (Returned tt, with_screen s (rendered ms)).
Proof.
  revert s; induction ms as [|m ms IH]; intros s.
  - simpl. now rewrite with_screen_nil.
  - cbn [for_each]. unfold shell_seq, shell_bind at 1.
    unfold show_message at 1. unfold shell_seq, shell_bind at 1.
    rewrite !show_eq, IH, !with_screen_app. reflexivity.
Qed.

(** The engine never makes the chat page's call of [run_agent] raise, with
    or without an agent in the session. *)
Lemma run_agent_of_session_returns
    (agent_run : AgentExecutor -> string -> outcome string)
    (agent : option AgentExecutor) (prompt : string) :
  exists answer, run_agent_of_session agent_run agent prompt = Returned answer.
Proof.
  unfold run_agent_of_session.
  destruct agent as [a|]; [destruct (agent_run a (instruction prompt))|]; simpl; eauto.
Qed.

Lemma run_agent_of_session_some
    (agent_run : AgentExecutor -> string -> outcome string)
    (a : AgentExecutor) (prompt : string) :
  run_agent_of_session agent_run (Some a) prompt = run_agent agent_run a prompt.
Proof. reflexivity. Qed.

Section ShellFacts.
Context {Job : Type}.

(** [attempt_login], case by case. *)
Lemma attempt_login_eq (connect : outcome (BigQueryClient Job)) (s : Session) :
  attempt_login connect s =
  let key := widget_openai_api_key s in
  if truthy key then
    if has_nul key then
      (Raised (OtherException "embedded null byte"),
       with_screen s [st_spinner "Setting up the agent..."])
    else
    match connect with
    | Returned client =>
        (Returned tt,
         {| environ_openai_api_key := Some key;
            widget_openai_api_key := key;
            app_state :=
              {| app_logged_in := true;
                 app_messages := app_messages (app_state s);
                 app_openai_api_key := key;
                 app_agent := Some (setup_agent client key) |};
            screen := screen s ++ [st_spinner "Setting up the agent...";
                                   st_success "Logged in successfully!"] |})
    | Raised e =>
        (Raised e,
         {| environ_openai_api_key := Some key;
            widget_openai_api_key := key;
            app_state := app_state s;
            screen := screen s ++ [st_spinner "Setting up the agent..."] |})
    end
  else (Returned tt, with_screen s [st_error "Please enter an OpenAI API key"]).
Proof.
  destruct s as [env key st scr]. cbv zeta. cbn [widget_openai_api_key].
  unfold attempt_login, shell_bind at 1. unfold get_widget at 1.
  cbn [widget_openai_api_key].
  destruct (truthy key); [|reflexivity].
  destruct (has_nul key) eqn:Hnul;
    [|destruct connect as [client|e]];
    cbv beta iota zeta delta
      [shell_seq shell_bind get_widget show modify_app setup_agent_session
       set_environ shell_lift shell_ret with_screen
       app_state screen environ_openai_api_key widget_openai_api_key
       set_agent set_logged_in set_openai_api_key
       app_logged_in app_messages app_openai_api_key app_agent];
    rewrite Hnul; try reflexivity.
  now rewrite <- app_assoc.
Qed.

(** [chat_page], case by case. *)
Lemma chat_page_eq (agent_run : AgentExecutor -> string -> outcome string)
    (prompt : option string) (s : Session) :
  chat_page agent_run prompt s =
  let st := app_state s in
  if truthy_input prompt then
    match prompt with
    | Some p =>
        match run_agent_of_session agent_run (app_agent st) p with
        | Returned answer =>
            (Returned tt,
             {| environ_openai_api_key := environ_openai_api_key s;
                widget_openai_api_key := widget_openai_api_key s;
                app_state :=
                  append_message {| role := "assistant"; content := answer |}
                    (append_message {| role := "user"; content := p |} st);
                screen := screen s ++ chat_page_frame (app_messages st)
                          ++ [st_chat_message "user"; st_markdown p;
                              st_chat_message "assistant"; st_empty;
                              st_spinner "Thinking..."; placeholder_markdown answer] |})
        | Raised e =>
            (Returned tt,
             {| environ_openai_api_key := environ_openai_api_key s;
                widget_openai_api_key := widget_openai_api_key s;
                app_state := append_message {| role := "user"; content := p |} st;
                screen := screen s ++ chat_page_frame (app_messages st)
                          ++ [st_chat_message "user"; st_markdown p;
                              st_chat_message "assistant"; st_empty;
                              st_spinner "Thinking...";
                              st_error (error_prefix ++ exn_str e)] |})
        end
    | None => (Returned tt, s)
    end
  else (Returned tt, with_screen s (chat_page_frame (app_messages st))).
Proof.
  cbv zeta. unfold chat_page.
  unfold shell_seq at 1, shell_bind at 1. rewrite show_eq.
  unfold shell_seq at 1, shell_bind at 1. rewrite show_eq.
  unfold shell_bind at 1, get_app at 1. cbn [app_state with_screen].
  unfold shell_seq at 1, shell_bind at 1. rewrite for_each_show_message.
  unfold shell_seq at 1, shell_bind at 1. rewrite show_eq.
  unfold shell_seq at 1, shell_bind at 1. rewrite show_eq.
  unfold shell_seq at 1, shell_bind at 1. rewrite show_eq.
  rewrite !with_screen_app.
  change ([st_title "Chat with the assistant!"] ++ [st_markdown chat_style]
          ++ rendered (app_messages (app_state s))
          ++ [st_markdown chat_input_open]
          ++ [st_chat_input "Ask a question about 'the_pulse' dataset"]
          ++ [st_markdown chat_input_close])%list
    with (chat_page_frame (app_messages (app_state s))).
  destruct prompt as [p|]; cbn [truthy_input]; [|reflexivity].
  destruct (truthy p); [|reflexivity].
  unfold shell_seq, shell_bind, shell_try, shell_lift, get_app, show, modify_app,
    with_screen.
  cbn [app_state screen environ_openai_api_key widget_openai_api_key
       append_message app_agent].
  destruct (run_agent_of_session agent_run (app_agent (app_state s)) p);
    cbn [app_state screen environ_openai_api_key widget_openai_api_key];
    repeat rewrite <- app_assoc; reflexivity.
Qed.

Lemma chat_page_prompt_eq (agent_run : AgentExecutor -> string -> outcome string)
    (p : string) (s : Session) :
  truthy p = true ->
  exists answer : string,
    run_agent_of_session agent_run (app_agent (app_state s)) p = Returned answer /\
    chat_page agent_run (Some p) s =
    (Returned tt,
     {| environ_openai_api_key := environ_openai_api_key s;
        widget_openai_api_key := widget_openai_api_key s;
        app_state :=
          {| app_logged_in := app_logged_in (app_state s);
             app_messages :=
               app_messages (app_state s)
               ++ [ {| role := "user"; content := p |};
                    {| role := "assistant"; content := answer |} ];
             app_openai_api_key := app_openai_api_key (app_state s);
             app_agent := app_agent (app_state s) |};
        screen :=
          screen s ++ chat_page_frame (app_messages (app_state s))
          ++ [st_chat_message "user"; st_markdown p;
              st_chat_message "assistant"; st_empty;
              st_spinner "Thinking..."; placeholder_markdown answer] |}).
Proof.
  intros Hp.
  destruct (run_agent_of_session_returns agent_run (app_agent (app_state s)) p)
    as [answer Ha].
  exists answer. split; [exact Ha|].
  rewrite chat_page_eq. cbv zeta. cbn [truthy_input]. rewrite Hp, Ha.
  unfold append_message. cbn [app_logged_in app_messages app_openai_api_key app_agent].
  now rewrite <- app_assoc.
Qed.

Lemma chat_page_no_prompt_eq (agent_run : AgentExecutor -> string -> outcome string)
    (prompt : option string) (s : Session) :
  truthy_input prompt = false ->
  chat_page agent_run prompt s
  = (Returned tt, with_screen s (chat_page_frame (app_messages (app_state s)))).
Proof.
  intros H. rewrite chat_page_eq. cbv zeta. now rewrite H.
Qed.

Lemma login_page_eq (connect : outcome (BigQueryClient Job)) (clicked : bool)
    (s : Session) :
  login_page connect clicked s =
  let s0 := with_screen s [st_markdown login_header;
                           st_text_input "OpenAI API Key"; st_button "LOGIN"] in
  if clicked then attempt_login connect s0 else (Returned tt, s0).
Proof.
  unfold login_page. unfold shell_seq, shell_bind. rewrite !show_eq.
  rewrite !with_screen_app. destruct clicked; reflexivity.
Qed.

Lemma main_eq (connect : outcome (BigQueryClient Job))
    (agent_run : AgentExecutor -> string -> outcome string)
    (clicked : bool) (prompt : option string) (s : Session) :
  main connect agent_run clicked prompt s =
  if app_logged_in (app_state s) then chat_page agent_run prompt s
  else login_page connect clicked s.
Proof.
  unfold main, shell_bind, get_app.
  destruct (app_logged_in (app_state s)); reflexivity.
Qed.

Lemma key_entered_eq (key : string) (connect : outcome (BigQueryClient Job))
    (s : Session) :
  interact (KeyEntered key connect) s =
  attempt_login connect
    {| environ_openai_api_key := environ_openai_api_key s;
       widget_openai_api_key := key;
       app_state := app_state s;
       screen := screen s |}.
Proof.
  cbn [interact]. unfold shell_seq, shell_bind, set_widget. reflexivity.
Qed.

End ShellFacts.

(** X14. With a key in the widget that [os.environ] accepts (not empty,
    no NUL character) and a warehouse client at hand, [attempt_login] logs
    the session in: the agent of [setup_agent] for that key is stored, the
    key is kept in the state and in the environment, the transcript is left
    alone, and the success note is shown. *)
Theorem attempt_login_logs_in {Job : Type} (connect : outcome (BigQueryClient Job))
    (client : BigQueryClient Job) (s : Session) :
  truthy (widget_openai_api_key s) = true ->
  has_nul (widget_openai_api_key s) = false ->
  connect = Returned client ->
  let key := widget_openai_api_key s in
  let s' := snd (attempt_login connect s) in
  fst (attempt_login connect s) = Returned tt /\
  app_state s' =
    {| app_logged_in := true;
       app_messages := app_messages (app_state s);
       app_openai_api_key := key;
       app_agent := Some (setup_agent client key) |} /\
  environ_openai_api_key s' = Some key /\
  screen s' = (screen s ++ [st_spinner "Setting up the agent...";
                            st_success "Logged in successfully!"])%list.
Proof.
  intros Hkey Hnul ->. cbv zeta. rewrite attempt_login_eq. cbv zeta.
  rewrite Hkey, Hnul. repeat split.
Qed.

Lemma attempt_login_logs_in_witness :
  let s := snd (set_widget "sk-test" initial_session) in
  let s' := snd (attempt_login (Returned scenario_client) s) in
  fst (attempt_login (Returned scenario_client) s) = Returned tt /\
  app_state s' =
    {| app_logged_in := true;
       app_messages := [];
       app_openai_api_key := "sk-test";
       app_agent := Some (setup_agent scenario_client "sk-test") |} /\
  environ_openai_api_key s' = Some "sk-test" /\
  screen s' = [st_spinner "Setting up the agent...";
               st_success "Logged in successfully!"].
Proof.
  exact (attempt_login_logs_in (Returned scenario_client) scenario_client
           (snd (set_widget "sk-test" initial_session)) eq_refl eq_refl eq_refl).
Defined.

(** X15. Without a key, with a key that holds a NUL character, or when
    building the warehouse client raises, [attempt_login] leaves the
    application state as it was. Without a key it returns, touches nothing
    else and asks for a key. With a NUL in the key it raises the
    [ValueError] of the environment, which is left as it was. With a good
    key and a failing client it raises the client's exception, after the
    key went to the environment. The success note is shown in no case. *)
Theorem attempt_login_keeps_state {Job : Type} (connect : outcome (BigQueryClient Job))
    (s : Session) :
  truthy (widget_openai_api_key s) = false \/
  has_nul (widget_openai_api_key s) = true \/
  (exists e, connect = Raised e) ->
  let s' := snd (attempt_login connect s) in
  app_state s' = app_state s /\
  (forall text, ~ In (st_success text) (skipn (length (screen s)) (screen s'))) /\
  (truthy (widget_openai_api_key s) = false ->
   fst (attempt_login connect s) = Returned tt /\
   s' = with_screen s [st_error "Please enter an OpenAI API key"]) /\
  (truthy (widget_openai_api_key s) = true ->
   has_nul (widget_openai_api_key s) = true ->
   fst (attempt_login connect s) = Raised (OtherException "embedded null byte") /\
   s' = with_screen s [st_spinner "Setting up the agent..."]) /\
  (truthy (widget_openai_api_key s) = true ->
   has_nul (widget_openai_api_key s) = false ->
   forall e, connect = Raised e ->
     fst (attempt_login connect s) = Raised e /\
     environ_openai_api_key s' = Some (widget_openai_api_key s) /\
     screen s' = (screen s ++ [st_spinner "Setting up the agent..."])%list).
Proof.
  intros H. cbv zeta. rewrite attempt_login_eq. cbv zeta.
  assert (Hskip : forall calls : list UiCall,
             skipn (length (screen s)) (screen s ++ calls) = calls).
  { intros calls. rewrite skipn_app, skipn_all, Nat.sub_diag. reflexivity. }
  destruct (truthy (widget_openai_api_key s)) eqn:Hkey.
  - destruct (has_nul (widget_openai_api_key s)) eqn:Hnul.
    + cbn [fst snd with_screen app_state screen].
      split; [reflexivity|]. split.
      { intros text. rewrite Hskip. simpl. intros [E|[]]. discriminate. }
      split; [discriminate|]. split; [auto | discriminate].
    + destruct H as [H|[H|[e ->]]]; [discriminate | discriminate |].
      cbn [fst snd app_state screen environ_openai_api_key].
      split; [reflexivity|]. split.
      { intros text. rewrite Hskip. simpl. intros [E|[]]. discriminate. }
      split; [discriminate|]. split; [discriminate|].
      intros _ _ e' He'. injection He' as <-. repeat split.
  - cbn [fst snd with_screen app_state screen].
    split; [reflexivity|]. split.
    { intros text. rewrite Hskip. simpl. intros [E|[]]. discriminate. }
    split; [auto|]. split; discriminate.
Qed.

Lemma attempt_login_keeps_state_witness :
  let failing : outcome (BigQueryClient string) :=
    Raised (OtherException "invalid credentials") in
  let working : outcome (BigQueryClient string) := Returned scenario_client in
  let without_key := initial_session in
  let with_nul := snd (set_widget (String (ascii_of_nat 0) "sk") initial_session) in
  let with_key := snd (set_widget "sk-test" initial_session) in
  (app_state (snd (attempt_login working without_key)) = initial_app_state /\
   fst (attempt_login working without_key) = Returned tt) /\
  (app_state (snd (attempt_login working with_nul)) = initial_app_state /\
   fst (attempt_login working with_nul) = Raised (OtherException "embedded null byte") /\
   environ_openai_api_key (snd (attempt_login working with_nul)) = None) /\
  (app_state (snd (attempt_login failing with_key)) = initial_app_state /\
   fst (attempt_login failing with_key) = Raised (OtherException "invalid credentials") /\
   environ_openai_api_key (snd (attempt_login failing with_key)) = Some "sk-test").
Proof.
  cbv zeta. split; [|split].
  - pose proof (attempt_login_keeps_state
                  (Returned scenario_client) initial_session (or_introl eq_refl)) as H.
    cbv zeta in H. destruct H as (H1 & _ & H2 & _).
    exact (conj H1 (proj1 (H2 eq_refl))).
  - pose proof (attempt_login_keeps_state
                  (Returned scenario_client)
                  (snd (set_widget (String (ascii_of_nat 0) "sk") initial_session))
                  (or_intror (or_introl eq_refl))) as H.
    cbv zeta in H. destruct H as (H1 & _ & _ & H3 & _).
    destruct (H3 eq_refl eq_refl) as [H4 H5].
    split; [exact H1|]. split; [exact H4|]. now rewrite H5.
  - pose proof (attempt_login_keeps_state
                  (Raised (OtherException "invalid credentials")
                   : outcome (BigQueryClient string))
                  (snd (set_widget "sk-test" initial_session))
                  (or_intror (or_intror (ex_intro _ _ eq_refl)))) as H.
    cbv zeta in H. destruct H as (H1 & _ & _ & _ & H4).
    destruct (H4 eq_refl eq_refl _ eq_refl) as (H5 & H6 & _).
    exact (conj H1 (conj H5 H6)).
Defined.

(** X16. A question put to the chat page is answered within the same run: the
    page never raises, the transcript grows by the question and then by
    exactly one answer, which is what [run_agent] returned (the error text
    when the engine raised), nothing else of the state changes, and the
    [except] branch of the page is not taken. *)
Theorem chat_page_exchange
    (agent_run : AgentExecutor -> string -> outcome string)
    (p : string) (s : Session) :
  truthy p = true ->
  exists answer : string,
    run_agent_of_session agent_run (app_agent (app_state s)) p = Returned answer /\
    (forall a, app_agent (app_state s) = Some a ->
               run_agent agent_run a p = Returned answer) /\
    chat_page agent_run (Some p) s =
    (Returned tt,
     {| environ_openai_api_key := environ_openai_api_key s;
        widget_openai_api_key := widget_openai_api_key s;
        app_state :=
          {| app_logged_in := app_logged_in (app_state s);
             app_messages :=
               app_messages (app_state s)
               ++ [ {| role := "user"; content := p |};
                    {| role := "assistant"; content := answer |} ];
             app_openai_api_key := app_openai_api_key (app_state s);
             app_agent := app_agent (app_state s) |};
        screen :=
          screen s ++ chat_page_frame (app_messages (app_state s))
          ++ [st_chat_message "user"; st_markdown p;
              st_chat_message "assistant"; st_empty;
              st_spinner "Thinking..."; placeholder_markdown answer] |}).
Proof.
  intros Hp.
  destruct (chat_page_prompt_eq agent_run p s Hp) as (answer & Ha & Heq).
  exists answer. split; [exact Ha|]. split; [|exact Heq].
  intros a Hsome. rewrite Hsome in Ha. exact Ha.
Qed.

Lemma chat_page_exchange_witness :
  exists answer : string,
    run_agent_of_session unreachable_engine None "How many leads?" = Returned answer /\
    (forall a, app_agent (app_state initial_session) = Some a ->
               run_agent unreachable_engine a "How many leads?" = Returned answer) /\
    chat_page unreachable_engine (Some "How many leads?") initial_session =
    (Returned tt,
     {| environ_openai_api_key := None;
        widget_openai_api_key := EmptyString;
        app_state :=
          {| app_logged_in := false;
             app_messages :=
               [ {| role := "user"; content := "How many leads?" |};
                 {| role := "assistant"; content := answer |} ];
             app_openai_api_key := EmptyString;
             app_agent := None |};
        screen :=
          chat_page_frame []
          ++ [st_chat_message "user"; st_markdown "How many leads?";
              st_chat_message "assistant"; st_empty;
              st_spinner "Thinking..."; placeholder_markdown answer] |}).
Proof.
  exact (chat_page_exchange unreachable_engine "How many leads?" initial_session eq_refl).
Defined.

(** X17. Without a question ([None], or the empty text) the chat page only
    draws: title, style, the stored transcript message by message in its
    order, and the input box; the session is otherwise as before. *)
Theorem chat_page_idle
    (agent_run : AgentExecutor -> string -> outcome string)
    (prompt : option string) (s : Session) :
  truthy_input prompt = false ->
  chat_page agent_run prompt s
  = (Returned tt, with_screen s (chat_page_frame (app_messages (app_state s)))).
Proof.
  exact (chat_page_no_prompt_eq agent_run prompt s).
Qed.

Lemma chat_page_idle_witness :
  chat_page unreachable_engine (Some EmptyString) initial_session
  = (Returned tt, with_screen initial_session (chat_page_frame [])).
Proof.
  exact (chat_page_idle unreachable_engine (Some EmptyString) initial_session eq_refl).
Defined.

Lemma transcript_of_snoc (exchanges : list (string * string)) (q a : string) :
  transcript_of (exchanges ++ [(q, a)])
  = (transcript_of exchanges
     ++ [ {| role := "user"; content := q |};
          {| role := "assistant"; content := a |} ])%list.
Proof.
  unfold transcript_of. rewrite flat_map_app. reflexivity.
Qed.

Lemma attempt_login_ok {Job : Type} (connect : outcome (BigQueryClient Job))
    (s : Session) :
  session_ok s -> session_ok (snd (attempt_login connect s)).
Proof.
  intros (Hm & Hin & Hout). rewrite attempt_login_eq. cbv zeta.
  destruct (truthy (widget_openai_api_key s)) eqn:Hkey.
  - destruct (has_nul (widget_openai_api_key s)).
    { cbn [snd]. unfold session_ok, with_screen;
        cbn [app_state environ_openai_api_key]. auto. }
    destruct connect as [client|e]; cbn [snd]; unfold session_ok;
      cbn [app_state app_messages app_logged_in app_agent app_openai_api_key
           environ_openai_api_key].
    + split; [exact Hm|]. split; [|discriminate].
      intros _. split; [exact Hkey|]. split; [discriminate|].
      eexists. split; [reflexivity|]. split; reflexivity.
    + split; [exact Hm|]. split; [|exact Hout].
      intros Hl. destruct (Hin Hl) as (Hk & _ & Ha).
      split; [exact Hk|]. split; [discriminate | exact Ha].
  - cbn [snd]. unfold session_ok, with_screen;
      cbn [app_state environ_openai_api_key]. auto.
Qed.

Lemma chat_page_ok (agent_run : AgentExecutor -> string -> outcome string)
    (prompt : option string) (s : Session) :
  app_logged_in (app_state s) = true ->
  session_ok s -> session_ok (snd (chat_page agent_run prompt s)).
Proof.
  intros Hl (Hm & Hin & Hout).
  destruct (truthy_input prompt) eqn:Hp.
  - destruct prompt as [p|]; [|discriminate]. cbn [truthy_input] in Hp.
    destruct (chat_page_prompt_eq agent_run p s Hp) as (answer & _ & ->).
    cbn [snd]. unfold session_ok.
    cbn [app_state app_messages app_logged_in app_agent app_openai_api_key
         environ_openai_api_key].
    split; [|split; [exact Hin | intros Hf; rewrite Hf in Hl; discriminate]].
    destruct Hm as [exchanges ->]. exists (exchanges ++ [(p, answer)])%list.
    now rewrite transcript_of_snoc.
  - rewrite (chat_page_no_prompt_eq agent_run prompt s Hp). cbn [snd].
    unfold session_ok, with_screen; cbn [app_state environ_openai_api_key]. auto.
Qed.

Lemma interact_ok {Job : Type} (i : @Interaction Job) (s : Session) :
  session_ok s -> session_ok (snd (interact i s)).
Proof.
  intros Hs. destruct i as [key connect | connect agent_run clicked prompt].
  - rewrite key_entered_eq. apply attempt_login_ok. exact Hs.
  - cbn [interact]. rewrite main_eq.
    destruct (app_logged_in (app_state s)) eqn:Hl.
    + now apply chat_page_ok.
    + rewrite login_page_eq. cbv zeta.
      destruct clicked; [apply attempt_login_ok|]; exact Hs.
Qed.

(** X18. Whatever the user does and whatever the warehouse and the engine
    answer, a session that started fresh keeps a transcript of whole
    exchanges (each question directly followed by its one answer); while it
    is logged in it holds a key and an agent of nine tools and five
    iterations; while it is not, it holds no agent, no key and no message. *)
Theorem session_stays_ok {Job : Type} (trace : list (@Interaction Job)) :
  session_ok (run_session trace initial_session).
Proof.
  assert (H : forall s, session_ok s -> session_ok (run_session trace s)).
  { induction trace as [|i trace IH]; intros s Hs; [exact Hs|].
    cbn [run_session fold_left]. apply IH. now apply interact_ok. }
  apply H. unfold session_ok, initial_session, initial_app_state; simpl.
  split; [exists []; reflexivity|]. split; [discriminate | auto].
Qed.

Lemma interact_grows {Job : Type} (i : @Interaction Job) (s : Session) :
  (app_logged_in (app_state s) = true ->
   app_logged_in (app_state (snd (interact i s))) = true) /\
  exists more,
    app_messages (app_state (snd (interact i s)))
    = (app_messages (app_state s) ++ more)%list.
Proof.
  assert (Hlogin : forall (connect : outcome (BigQueryClient Job)) s0,
             (app_logged_in (app_state s0) = true ->
              app_logged_in (app_state (snd (attempt_login connect s0))) = true) /\
             app_messages (app_state (snd (attempt_login connect s0)))
             = app_messages (app_state s0)).
  { intros connect s0. rewrite attempt_login_eq. cbv zeta.
    destruct (truthy (widget_openai_api_key s0));
      [destruct (has_nul (widget_openai_api_key s0)); [|destruct connect]|];
      cbn [snd app_state app_logged_in app_messages with_screen]; auto. }
  destruct i as [key connect | connect agent_run clicked prompt].
  - rewrite key_entered_eq.
    match goal with
    | |- context [attempt_login connect ?s0] =>
        destruct (Hlogin connect s0) as [H1 H2]
    end.
    split; [exact H1|]. exists []. rewrite H2. cbn [app_state].
    now rewrite app_nil_r.
  - cbn [interact]. rewrite main_eq.
    destruct (app_logged_in (app_state s)) eqn:Hl.
    + destruct (truthy_input prompt) eqn:Hp.
      * destruct prompt as [p|]; [|discriminate]. cbn [truthy_input] in Hp.
        destruct (chat_page_prompt_eq agent_run p s Hp) as (answer & _ & ->).
        cbn [snd app_state app_logged_in app_messages].
        split; [intros _; exact Hl | eexists; reflexivity].
      * rewrite (chat_page_no_prompt_eq agent_run prompt s Hp).
        cbn [snd with_screen app_state].
        split; [auto | exists []; now rewrite app_nil_r].
    + split; [discriminate|].
      rewrite login_page_eq. cbv zeta. destruct clicked.
      * match goal with
        | |- context [attempt_login connect ?s0] =>
            destruct (Hlogin connect s0) as [_ H2]; rewrite H2
        end.
        exists []. cbn [with_screen app_state]. now rewrite app_nil_r.
      * exists []. cbn [snd with_screen app_state]. now rewrite app_nil_r.
Qed.

(** X19. A session that is logged in stays logged in, and no interaction
    removes or rewrites a message of the transcript: what was there is a
    prefix of what is there afterwards. *)
Theorem session_never_logs_out {Job : Type} (trace : list (@Interaction Job))
    (s : Session) :
  app_logged_in (app_state s) = true ->
  app_logged_in (app_state (run_session trace s)) = true /\
  exists more,
    app_messages (app_state (run_session trace s))
    = (app_messages (app_state s) ++ more)%list.
Proof.
  revert s; induction trace as [|i trace IH]; intros s Hl.
  - split; [exact Hl | exists []; now rewrite app_nil_r].
  - cbn [run_session fold_left].
    destruct (interact_grows i s) as [H1 [more1 H2]].
    destruct (IH _ (H1 Hl)) as [H3 [more2 H4]].
    split; [exact H3|].
    exists (more1 ++ more2)%list.
    unfold run_session in H4. rewrite H4, H2. now rewrite app_assoc.
Qed.

Lemma session_never_logs_out_witness :
  let s := run_session [KeyEntered "sk-test" (Returned scenario_client)] initial_session in
  let trace :=
    [ ScriptRun (Returned scenario_client) unreachable_engine false (Some "How many leads?");
      KeyEntered EmptyString (Raised (OtherException "invalid credentials")) ] in
  app_logged_in (app_state (run_session trace s)) = true /\
  exists more,
    app_messages (app_state (run_session trace s))
    = (app_messages (app_state s) ++ more)%list.
Proof.
  exact (session_never_logs_out
           [ ScriptRun (Returned scenario_client) unreachable_engine false
               (Some "How many leads?");
             KeyEntered EmptyString (Raised (OtherException "invalid credentials")) ]
           (run_session [KeyEntered "sk-test" (Returned scenario_client)] initial_session)
           eq_refl).
Defined.
